(** * Reviews widget (react/Reviews.tsx): relative-time formatter, reducer
      and render rules, embedded from the TypeScript source.

    Numbers that the component counts with (offset, limit, total, time
    values in milliseconds) are integers and are modelled in [Z]; the
    average rating is a rational.  [NaN] is [None] in [option Z]. *)

From Stdlib Require Import ZArith String List Bool Lia QArith DecimalString.
Import ListNotations.

Local Open Scope string_scope.
Local Open Scope Z_scope.

(** ** The Date built-ins the formatter calls (ECMAScript, Date objects:
       "Time Values and Time Range", "Day Number and Time within Day",
       "Year Number", "Month Number", "Date Number", "Hours, Minutes"). *)
Module Date.

Definition msPerDay : Z := 86400000.
Definition msPerHour : Z := 3600000.
Definition msPerMinute : Z := 60000.
Definition HoursPerDay : Z := 24.
Definition MinutesPerHour : Z := 60.

(** Largest magnitude of a time value: 8.64e15 ms. *)
Definition maxTime : Z := 8640000000000000.

(** [TimeClip]: a time beyond the range is NaN. *)
Definition TimeClip (time : option Z) : option Z :=
  match time with
  | None => None
  | Some t => if Z.abs t >? maxTime then None else Some t
  end.

Definition Day (t : Z) : Z := t / msPerDay.
Definition TimeWithinDay (t : Z) : Z := t mod msPerDay.

Definition DaysInYear (y : Z) : Z :=
  if negb (y mod 4 =? 0) then 365
  else if negb (y mod 100 =? 0) then 366
  else if negb (y mod 400 =? 0) then 365
  else 366.

Definition DayFromYear (y : Z) : Z :=
  365 * (y - 1970) + (y - 1969) / 4 - (y - 1901) / 100 + (y - 1601) / 400.

Definition TimeFromYear (y : Z) : Z := msPerDay * DayFromYear y.

(** [YearFromTime t] is specified as the largest [y] with
    [TimeFromYear y <= t].  It is computed from the mean length of a
    Gregorian year (146097 days in 400 years), which is off by at most one
    year, and then adjusted; [YearFromTime_spec] below shows that the
    result is the specified one. *)
Definition YearFromTime (t : Z) : Z :=
  let y := 1970 + (400 * Day t) / 146097 in
  if Day t <? DayFromYear y then y - 1
  else if DayFromYear (y + 1) <=? Day t then y + 1
  else y.

Definition InLeapYear (t : Z) : Z :=
  if DaysInYear (YearFromTime t) =? 366 then 1 else 0.

Definition DayWithinYear (t : Z) : Z := Day t - DayFromYear (YearFromTime t).

Definition MonthFromTime (t : Z) : Z :=
  let d := DayWithinYear t in
  let leap := InLeapYear t in
  if d <? 31 then 0
  else if d <? 59 + leap then 1
  else if d <? 90 + leap then 2
  else if d <? 120 + leap then 3
  else if d <? 151 + leap then 4
  else if d <? 181 + leap then 5
  else if d <? 212 + leap then 6
  else if d <? 243 + leap then 7
  else if d <? 273 + leap then 8
  else if d <? 304 + leap then 9
  else if d <? 334 + leap then 10
  else 11.

Definition DateFromTime (t : Z) : Z :=
  let d := DayWithinYear t in
  let leap := InLeapYear t in
  match MonthFromTime t with
  | 0 => d + 1
  | 1 => d - 30
  | 2 => d - 58 - leap
  | 3 => d - 89 - leap
  | 4 => d - 119 - leap
  | 5 => d - 150 - leap
  | 6 => d - 180 - leap
  | 7 => d - 211 - leap
  | 8 => d - 242 - leap
  | 9 => d - 272 - leap
  | 10 => d - 303 - leap
  | _ => d - 333 - leap
  end.

Definition HourFromTime (t : Z) : Z := (t / msPerHour) mod HoursPerDay.
Definition MinFromTime (t : Z) : Z := (t / msPerMinute) mod MinutesPerHour.

(** Days of the year before month [m] (0-based). *)
Definition DaysBeforeMonth (leap m : Z) : Z :=
  match m with
  | 0 => 0
  | 1 => 31
  | 2 => 59 + leap
  | 3 => 90 + leap
  | 4 => 120 + leap
  | 5 => 151 + leap
  | 6 => 181 + leap
  | 7 => 212 + leap
  | 8 => 243 + leap
  | 9 => 273 + leap
  | 10 => 304 + leap
  | _ => 334 + leap
  end.

(** [MakeTime], [MakeDay], [MakeDate] and [Date.UTC] on integer fields. *)
Definition MakeTime (hour min sec ms : Z) : Z :=
  hour * msPerHour + min * msPerMinute + sec * 1000 + ms.

Definition MakeDay (year month date : Z) : Z :=
  let ym := year + month / 12 in
  let mn := month mod 12 in
  let leap := if DaysInYear ym =? 366 then 1 else 0 in
  DayFromYear ym + DaysBeforeMonth leap mn + date - 1.

Definition MakeDate (day time : Z) : Z := day * msPerDay + time.

Definition UTC (year month date hours minutes seconds ms : Z) : Z :=
  MakeDate (MakeDay year month date) (MakeTime hours minutes seconds ms).

(** The getters of a Date object whose time value is [tv]:
    NaN for an invalid date. *)
Definition getUTCFullYear (tv : option Z) : option Z := option_map YearFromTime tv.
Definition getUTCMonth (tv : option Z) : option Z := option_map MonthFromTime tv.
Definition getUTCDate (tv : option Z) : option Z := option_map DateFromTime tv.
Definition getUTCHours (tv : option Z) : option Z := option_map HourFromTime tv.
Definition getUTCMinutes (tv : option Z) : option Z := option_map MinFromTime tv.

End Date.

(** ** JavaScript numbers as the formatter uses them: integers or NaN. *)
Module JS.

(** [a - b]: NaN when an operand is. *)
Definition sub (a b : option Z) : option Z :=
  match a, b with
  | Some x, Some y => Some (x - y)
  | _, _ => None
  end.

(** [a > n]: every comparison with NaN is false. *)
Definition gt (a : option Z) (n : Z) : bool :=
  match a with
  | Some x => x >? n
  | None => false
  end.

(** [String(a)], as a template literal converts a number. *)
Definition toString (a : option Z) : string :=
  match a with
  | Some x => NilZero.string_of_int (Z.to_int x)
  | None => "NaN"
  end.

End JS.

(** ** interface Review *)
Record Review : Type := {
  id : Z;
  cacheId : Z;
  productId : string;
  rating : Q;
  title : string;
  text : string;
  reviewerName : string;
  shopperId : string;
  reviewDateTime : string;
  verifiedPurchaser : bool
}.

(** ** interface State.  [reviews = None] is [null]. *)
Module State.
Record t : Type := {
  sort : string;
  offset : Z;
  limit : Z;
  reviews : option (list Review);
  total : Z;
  average : Q;
  hasTotal : bool;
  hasAverage : bool;
  showForm : bool
}.
End State.

(** ** Actions.  An action object carries a [type] string and [args]; the
    reducer reads of [args] only the field that belongs to the action's
    type, so the other fields of an action are immaterial.  A [reviews]
    payload of [None] is [null] or [undefined]. *)
Module Args.
Record t : Type := {
  sort : string;
  reviews : option (list Review);
  total : Z;
  average : Q
}.
Definition none : t :=
  {| sort := ""; reviews := None; total := 0; average := 0%Q |}.
End Args.

Record Action : Type := { type : string; args : Args.t }.

(** The members of the union type ReducerActions. *)
Definition SET_NEXT_PAGE : Action :=
  {| type := "SET_NEXT_PAGE"; args := Args.none |}.
Definition SET_PREV_PAGE : Action :=
  {| type := "SET_PREV_PAGE"; args := Args.none |}.
Definition TOGGLE_REVIEW_FORM : Action :=
  {| type := "TOGGLE_REVIEW_FORM"; args := Args.none |}.
Definition SET_SELECTED_SORT (sort : string) : Action :=
  {| type := "SET_SELECTED_SORT";
     args := {| Args.sort := sort; Args.reviews := None;
                Args.total := 0; Args.average := 0%Q |} |}.
Definition SET_REVIEWS (reviews : option (list Review)) : Action :=
  {| type := "SET_REVIEWS";
     args := {| Args.sort := ""; Args.reviews := reviews;
                Args.total := 0; Args.average := 0%Q |} |}.
Definition SET_TOTAL (total : Z) : Action :=
  {| type := "SET_TOTAL";
     args := {| Args.sort := ""; Args.reviews := None;
                Args.total := total; Args.average := 0%Q |} |}.
Definition SET_AVERAGE (average : Q) : Action :=
  {| type := "SET_AVERAGE";
     args := {| Args.sort := ""; Args.reviews := None;
                Args.total := 0; Args.average := average |} |}.

(** The seven [type] strings of ReducerActions. *)
Definition actionTypes : list string :=
  [ "SET_NEXT_PAGE"; "SET_PREV_PAGE"; "TOGGLE_REVIEW_FORM";
    "SET_SELECTED_SORT"; "SET_REVIEWS"; "SET_TOTAL"; "SET_AVERAGE" ].

Definition recognized (ty : string) : bool :=
  existsb (String.eqb ty) actionTypes.

(** const options *)
Record DropdownOption : Type := { label : string; value : string }.

Definition options : list DropdownOption :=
  [ {| label := "Most Recent"; value := "ReviewDateTime:desc" |};
    {| label := "Oldest"; value := "ReviewDateTime:asc" |};
    {| label := "Highest Rated"; value := "Rating:desc" |};
    {| label := "Lowest Rated"; value := "Rating:asc" |} ].

(** ** getTimeAgo *)
Section TimeAgo.

(** The time value of [new Date(s)] for a string [s]; [None] for an
    Invalid Date.  The strings built here ([time + ' UTC']) are not in the
    ISO format, and how they are read is left to the engine. *)
Variable Date_parse : string -> option Z.

(** The time value of [new Date()]: the present moment. *)
Variable Date_now : Z.

Definition getTimeAgo (time : string) : string :=
  let before := Date_parse (time ++ " UTC") in
  let now := Some Date_now in
  let diff := Date.TimeClip (JS.sub now before) in
  let minutes := Date.getUTCMinutes diff in
  let hours := Date.getUTCHours diff in
  let days := JS.sub (Date.getUTCDate diff) (Some 1) in
  let months := Date.getUTCMonth diff in
  let years := JS.sub (Date.getUTCFullYear diff) (Some 1970) in
  if JS.gt years 0 then
    JS.toString years ++ " " ++ (if JS.gt years 1 then "years" else "year") ++ " ago"
  else if JS.gt months 0 then
    JS.toString months ++ " " ++ (if JS.gt months 1 then "months" else "month") ++ " ago"
  else if JS.gt days 0 then
    JS.toString days ++ " " ++ (if JS.gt days 1 then "days" else "day") ++ " ago"
  else if JS.gt hours 0 then
    JS.toString hours ++ " " ++ (if JS.gt hours 1 then "hours" else "hour") ++ " ago"
  else if JS.gt minutes 0 then
    JS.toString minutes ++ " " ++ (if JS.gt minutes 1 then "minutes" else "minute") ++ " ago"
  else
    "just now".

End TimeAgo.

(** ** initialState *)
Definition initialState : State.t :=
  {| State.sort := "ReviewDateTime:desc";
     State.offset := 0;
     State.limit := 10;
     State.reviews := None;
     State.total := 0;
     State.average := 0%Q;
     State.hasTotal := false;
     State.hasAverage := false;
     State.showForm := false |}.

(** [{ ...state, field: v }] for each field the reducer writes. *)
Definition with_offset (state : State.t) (v : Z) : State.t :=
  {| State.sort := State.sort state; State.offset := v;
     State.limit := State.limit state; State.reviews := State.reviews state;
     State.total := State.total state; State.average := State.average state;
     State.hasTotal := State.hasTotal state;
     State.hasAverage := State.hasAverage state;
     State.showForm := State.showForm state |}.

Definition with_showForm (state : State.t) (v : bool) : State.t :=
  {| State.sort := State.sort state; State.offset := State.offset state;
     State.limit := State.limit state; State.reviews := State.reviews state;
     State.total := State.total state; State.average := State.average state;
     State.hasTotal := State.hasTotal state;
     State.hasAverage := State.hasAverage state;
     State.showForm := v |}.

Definition with_sort (state : State.t) (v : string) : State.t :=
  {| State.sort := v; State.offset := State.offset state;
     State.limit := State.limit state; State.reviews := State.reviews state;
     State.total := State.total state; State.average := State.average state;
     State.hasTotal := State.hasTotal state;
     State.hasAverage := State.hasAverage state;
     State.showForm := State.showForm state |}.

Definition with_reviews (state : State.t) (v : option (list Review)) : State.t :=
  {| State.sort := State.sort state; State.offset := State.offset state;
     State.limit := State.limit state; State.reviews := v;
     State.total := State.total state; State.average := State.average state;
     State.hasTotal := State.hasTotal state;
     State.hasAverage := State.hasAverage state;
     State.showForm := State.showForm state |}.

Definition with_total (state : State.t) (v : Z) (h : bool) : State.t :=
  {| State.sort := State.sort state; State.offset := State.offset state;
     State.limit := State.limit state; State.reviews := State.reviews state;
     State.total := v; State.average := State.average state;
     State.hasTotal := h;
     State.hasAverage := State.hasAverage state;
     State.showForm := State.showForm state |}.

Definition with_average (state : State.t) (v : Q) (h : bool) : State.t :=
  {| State.sort := State.sort state; State.offset := State.offset state;
     State.limit := State.limit state; State.reviews := State.reviews state;
     State.total := State.total state; State.average := v;
     State.hasTotal := State.hasTotal state;
     State.hasAverage := h;
     State.showForm := State.showForm state |}.

(** [a || []] on a reviews payload: an array, even an empty one, is truthy;
    [null] and [undefined] are not. *)
Definition orEmpty (reviews : option (list Review)) : list Review :=
  match reviews with
  | Some rs => rs
  | None => []
  end.

(** ** reducer.  The switch has no default case: for any other [type] the
    function ends without a return statement, and its value is [undefined],
    here [None]. *)
Definition reducer (state : State.t) (action : Action) : option State.t :=
  if (type action =? "SET_NEXT_PAGE")%string then
    Some (with_offset state (State.offset state + State.limit state))
  else if (type action =? "SET_PREV_PAGE")%string then
    Some (with_offset state
            (if State.offset state - State.limit state <? 0 then 0
             else State.offset state - State.limit state))
  else if (type action =? "TOGGLE_REVIEW_FORM")%string then
    Some (with_showForm state (negb (State.showForm state)))
  else if (type action =? "SET_SELECTED_SORT")%string then
    Some (with_sort state (Args.sort (args action)))
  else if (type action =? "SET_REVIEWS")%string then
    Some (with_reviews state (Some (orEmpty (Args.reviews (args action)))))
  else if (type action =? "SET_TOTAL")%string then
    Some (with_total state (Args.total (args action)) true)
  else if (type action =? "SET_AVERAGE")%string then
    Some (with_average state (Args.average (args action)) true)
  else None.

(** The state after dispatching a sequence of actions, one after the
    other; [None] once the reducer has returned [undefined]. *)
Fixpoint dispatchAll (state : State.t) (actions : list Action) : option State.t :=
  match actions with
  | [] => Some state
  | a :: rest =>
      match reducer state a with
      | Some state' => dispatchAll state' rest
      | None => None
      end
  end.

(** ** What the component renders.  Elements are kept as a tree; a handler
    prop is kept as the action it dispatches. *)
Record PaginationProps : Type := {
  textShowRows : string;
  currentItemFrom : Z;
  currentItemTo : Z;
  textOf : string;
  totalItems : Z;
  onNextClick : Action;
  onPrevClick : Action
}.

#[warnings="-register-all"]
Inductive Element : Type :=
| Null
| Text (s : string)
| Num (n : Z)
| NumQ (q : Q)
| Fragment (children : list Element)
| Tag (name className : string) (children : list Element)
| Stars (rating : Q)
| IconSuccess
| Dropdown (options : list DropdownOption) (onChange : string -> Action)
           (value : string)
| Pagination (props : PaginationProps).

(** The children of [<div className="review__rating">]. *)
Definition Reviews_rating (state : State.t) : Element :=
  if negb (State.hasTotal state) || negb (State.hasAverage state) then
    Fragment [Text "Loading summary..."]
  else if State.total state =? 0 then Null
  else
    Fragment
      [ Tag "div" "t-heading-4" [Stars (State.average state)];
        Tag "span" "review__rating--average dib v-mid"
            [NumQ (State.average state); Text " Average Rating"];
        Text " ";
        Tag "span" "review__rating--count dib v-mid"
            [Text "("; Num (State.total state); Text " Reviews)"] ].

Section Comments.

Variable Date_parse : string -> option Z.
Variable Date_now : Z.

(** One entry of [state.reviews.map(...)]. *)
Definition Reviews_comment (review : Review) : Element :=
  Tag "div" "review__comment bw2 bb b--muted-5 mb5 pb4"
    [ Tag "div" "review__comment--rating t-heading-5"
          [Stars (rating review)];
      Tag "h5" "review__comment--user lh-copy mw9 t-heading-5 mt0 mb2"
          [Text (title review)];
      Tag "ul" "pa0 mv2"
          [ (if verifiedPurchaser review then
               Tag "li" "dib mr5" [IconSuccess; Text " Verified Purchaser"]
             else Null);
            Tag "li" "dib mr2"
                [ Tag "strong" "" [Text "Submitted"]; Text " ";
                  Text (getTimeAgo Date_parse Date_now (reviewDateTime review)) ];
            Tag "li" "dib mr5"
                [ Tag "strong" "" [Text "by"]; Text " ";
                  Text (reviewerName review) ] ];
      Tag "p" "t-body lh-copy mw9" [Text (text review)] ].

(** The children of [<div className="review__comments">]. *)
Definition Reviews_comments (state : State.t) : Element :=
  match State.reviews state with
  | None => Fragment [Text "Loading reviews..."]
  | Some reviews =>
      if negb (Nat.eqb (length reviews) 0) then
        Fragment
          [ Tag "div" "flex mb7"
                [ Tag "div" "mr4"
                      [ Dropdown options (fun v => SET_SELECTED_SORT v)
                                 (State.sort state) ] ];
            Fragment (map Reviews_comment reviews);
            Tag "div" "review__paging"
                [ Pagination
                    {| textShowRows := "";
                       currentItemFrom := State.offset state + 1;
                       currentItemTo := State.offset state + State.limit state;
                       textOf := "of";
                       totalItems := State.total state;
                       onNextClick := SET_NEXT_PAGE;
                       onPrevClick := SET_PREV_PAGE |} ] ]
      else
        Tag "div" "review__comment bw2 bb b--muted-5 mb5 pb4"
            [ Tag "h5" "review__comment--user lh-copy mw9 t-heading-5 mv5"
                  [Text "No reviews."] ]
  end.

End Comments.

(** The pagers in an element tree, in document order. *)
Fixpoint pagers (e : Element) : list PaginationProps :=
  match e with
  | Pagination props => [props]
  | Fragment children => flat_map pagers children
  | Tag _ _ children => flat_map pagers children
  | _ => []
  end.

(** ** The wording of the specification, to compare the code with. *)
Module Spec.

(** A unit of the label: its amount and its two names. *)
Record TimeUnit : Type := { amount : Z; singular : string; plural : string }.

(** "correct singular/plural wording": singular when the amount is exactly 1. *)
Definition wording (u : TimeUnit) : string :=
  JS.toString (Some (amount u)) ++ " "
  ++ (if amount u =? 1 then singular u else plural u) ++ " ago".

(** "return the largest non-zero unit ...; if all units are zero, return a
    just now sentinel".  [units] are listed from the largest to the smallest. *)
Fixpoint largestNonZeroUnit (units : list TimeUnit) : string :=
  match units with
  | [] => "just now"
  | u :: rest => if amount u =? 0 then largestNonZeroUnit rest else wording u
  end.

(** "the calendar-field difference (years, months, days-of-month, hours,
    minutes) between now and the timestamp using UTC field subtraction". *)
Definition fieldSubtraction (now before : Z) : list TimeUnit :=
  [ {| amount := Date.YearFromTime now - Date.YearFromTime before;
       singular := "year"; plural := "years" |};
    {| amount := Date.MonthFromTime now - Date.MonthFromTime before;
       singular := "month"; plural := "months" |};
    {| amount := Date.DateFromTime now - Date.DateFromTime before;
       singular := "day"; plural := "days" |};
    {| amount := Date.HourFromTime now - Date.HourFromTime before;
       singular := "hour"; plural := "hours" |};
    {| amount := Date.MinFromTime now - Date.MinFromTime before;
       singular := "minute"; plural := "minutes" |} ].

(** The same five units read off the elapsed time [elapsed = now - before]
    as if it were a date: the calendar fields of the moment [elapsed]
    milliseconds after 1970-01-01T00:00:00Z, less those of that origin. *)
Definition elapsedFields (elapsed : Z) : list TimeUnit :=
  [ {| amount := Date.YearFromTime elapsed - 1970;
       singular := "year"; plural := "years" |};
    {| amount := Date.MonthFromTime elapsed;
       singular := "month"; plural := "months" |};
    {| amount := Date.DateFromTime elapsed - 1;
       singular := "day"; plural := "days" |};
    {| amount := Date.HourFromTime elapsed;
       singular := "hour"; plural := "hours" |};
    {| amount := Date.MinFromTime elapsed;
       singular := "minute"; plural := "minutes" |} ].


End Spec.

(** ** Concrete inputs used in the examples below. *)
Definition sampleReview : Review :=
  {| id := 1; cacheId := 1; productId := "P1"; rating := 5%Q;
     title := "Great"; text := "Works well."; reviewerName := "Ann";
     shopperId := "s1"; reviewDateTime := "10/25/2019 14:30:00";
     verifiedPurchaser := true |}.

(** An engine that reads the one string given and nothing else. *)
Definition readsAs (s : string) (tv : Z) : string -> option Z :=
  fun s' => if (s' =? s)%string then Some tv else None.

(** The states the component can be in: the initial one and those the
    reducer returns from them. *)
Inductive reachable : State.t -> Prop :=
| reachable_initial : reachable initialState
| reachable_dispatch (state state' : State.t) (action : Action) :
    reachable state -> reducer state action = Some state' -> reachable state'.

(** Two loaded pages at offset 0 with page size 10: a full one of ten
    reviews and a short one of three. *)
Definition fullPageState : State.t :=
  with_reviews initialState (Some (repeat sampleReview 10)).
Definition shortPageState : State.t :=
  with_reviews initialState (Some (repeat sampleReview 3)).

(** ** The label of getTimeAgo, by its parts.  [unitLabel n one many] is the
    template literal of one arm; [timeAgoOf] is the chain of tests on the five
    amounts once they are numbers. *)
Definition unitLabel (n : Z) (one many : string) : string :=
  JS.toString (Some n) ++ " " ++ (if n >? 1 then many else one) ++ " ago".

Definition timeAgoOf (years months days hours minutes : Z) : string :=
  if years >? 0 then unitLabel years "year" "years"
  else if months >? 0 then unitLabel months "month" "months"
  else if days >? 0 then unitLabel days "day" "days"
  else if hours >? 0 then unitLabel hours "hour" "hours"
  else if minutes >? 0 then unitLabel minutes "minute" "minutes"
  else "just now".

(** The strings getTimeAgo can return. *)
Inductive TimeAgoLabel : string -> Prop :=
| label_just_now : TimeAgoLabel "just now"
| label_years (n : Z) : 1 <= n -> TimeAgoLabel (unitLabel n "year" "years")
| label_months (n : Z) :
    1 <= n <= 11 -> TimeAgoLabel (unitLabel n "month" "months")
| label_days (n : Z) : 1 <= n <= 30 -> TimeAgoLabel (unitLabel n "day" "days")
| label_hours (n : Z) :
    1 <= n <= 23 -> TimeAgoLabel (unitLabel n "hour" "hours")
| label_minutes (n : Z) :
    1 <= n <= 59 -> TimeAgoLabel (unitLabel n "minute" "minutes").

(** ** The effects of Reviews: the queries they send.  [productId] is
    [undefined], here [None], when the context holds no product;
    [!productId] is true for [undefined] and for the empty string. *)
Inductive QueryDocument : Type :=
| ReviewsByProductId
| TotalReviewsByProductId
| AverageRatingByProductId.

Module Variables.
Record t : Type := {
  productId : string;
  offset : option Z;
  limit : option Z;
  orderBy : option string
}.
End Variables.

Record QueryOptions : Type := {
  query : QueryDocument;
  variables : Variables.t;
  fetchPolicy : option string
}.

(** The first effect: the total and the average. *)
Definition summaryEffect (productId : option string) : list QueryOptions :=
  match productId with
  | None => []
  | Some p =>
      if (p =? "")%string then []
      else
        [ {| query := TotalReviewsByProductId;
             variables := {| Variables.productId := p;
                             Variables.offset := None;
                             Variables.limit := None;
                             Variables.orderBy := None |};
             fetchPolicy := None |};
          {| query := AverageRatingByProductId;
             variables := {| Variables.productId := p;
                             Variables.offset := None;
                             Variables.limit := None;
                             Variables.orderBy := None |};
             fetchPolicy := None |} ]
  end.

(** The second effect: the page of reviews. *)
Definition listEffect (productId : option string) (state : State.t)
  : list QueryOptions :=
  match productId with
  | None => []
  | Some p =>
      if (p =? "")%string then []
      else
        [ {| query := ReviewsByProductId;
             variables := {| Variables.productId := p;
                             Variables.offset := Some (State.offset state);
                             Variables.limit := Some (State.limit state);
                             Variables.orderBy := Some (State.sort state) |};
             fetchPolicy := Some "no-cache" |} ]
  end.

(** What each [then] dispatches when its response arrives. *)
Definition onTotalResponse (totalReviewsByProductId : Z) : Action :=
  SET_TOTAL totalReviewsByProductId.
Definition onAverageResponse (averageRatingByProductId : Q) : Action :=
  SET_AVERAGE averageRatingByProductId.
Definition onReviewsResponse (reviewsByProductId : option (list Review))
  : Action :=
  SET_REVIEWS reviewsByProductId.

(** The dependency arrays of the two effects, the client left out (it is
    the same object throughout).  An effect runs again after a render
    exactly when its array differs from that of the render before. *)
Definition summaryDeps (productId : option string) : option string :=
  productId.

Definition listDeps (productId : option string) (state : State.t)
  : option string * Z * Z * string :=
  (productId, State.limit state, State.offset state, State.sort state).

(** ** The controls in what is rendered. *)
Record DropdownProps : Type := {
  dropdownOptions : list DropdownOption;
  dropdownOnChange : string -> Action;
  dropdownValue : string
}.

(** The dropdowns in an element tree, in document order. *)
Fixpoint dropdowns (e : Element) : list DropdownProps :=
  match e with
  | Dropdown opts onChange v =>
      [ {| dropdownOptions := opts; dropdownOnChange := onChange;
           dropdownValue := v |} ]
  | Fragment children => flat_map dropdowns children
  | Tag _ _ children => flat_map dropdowns children
  | _ => []
  end.

(** The ratings shown as stars, in document order. *)
Fixpoint starRatings (e : Element) : list Q :=
  match e with
  | Stars r => [r]
  | Fragment children => flat_map starRatings children
  | Tag _ _ children => flat_map starRatings children
  | _ => []
  end.

(** The number of verified-purchaser icons. *)
Fixpoint icons (e : Element) : nat :=
  match e with
  | IconSuccess => 1
  | Fragment children => list_sum (map icons children)
  | Tag _ _ children => list_sum (map icons children)
  | _ => 0
  end.

(** The texts in an element tree, in document order. *)
Fixpoint texts (e : Element) : list string :=
  match e with
  | Text s => [s]
  | Fragment children => flat_map texts children
  | Tag _ _ children => flat_map texts children
  | _ => []
  end.

(** The props of [<Collapsible>] around the review form. *)
Record CollapsibleProps : Type := {
  header : Element;
  onClick : Action;
  isOpen : bool
}.

Definition Reviews_collapsible (state : State.t) : CollapsibleProps :=
  {| header := Tag "span" "c-action-primary hover-c-action-primary"
                   [Text "Write a review"];
     onClick := TOGGLE_REVIEW_FORM;
     isOpen := State.showForm state |}.

(** Next and previous page, as the types of the two paging actions. *)
Definition isPaging (ty : string) : bool :=
  (ty =? "SET_NEXT_PAGE")%string || (ty =? "SET_PREV_PAGE")%string.

(** ** The numbers of the source are IEEE doubles.  An integer of magnitude
    up to 2^53 is a double, and a sum or difference of integers is exact when
    its magnitude is at most 2^53; a larger result is rounded to the nearest
    double, to the even one on a tie.  ([fl] is that rounding on integers,
    below the overflow to Infinity at 2^1024.) *)
Module Double.

Definition two53 : Z := 9007199254740992.

Definition safe (z : Z) : Prop := Z.abs z <= two53.

(** The distance between the doubles around [z]. *)
Definition ulp (z : Z) : Z :=
  if Z.abs z <? two53 then 1 else 2 ^ (Z.log2 (Z.abs z) - 52).

Definition fl (z : Z) : Z :=
  let u := ulp z in
  let q := z / u in
  let r := z mod u in
  if 2 * r <? u then q * u
  else if u <? 2 * r then (q + 1) * u
  else if Z.even q then q * u
  else (q + 1) * u.

Definition add (x y : Z) : Z := fl (x + y).
Definition sub (x y : Z) : Z := fl (x - y).

End Double.

(** The offsets that the two paging cases of the reducer compute, in the
    arithmetic of doubles: [state.offset + state.limit], and
    [state.offset - state.limit < 0 ? 0 : state.offset - state.limit]. *)
Definition nextOffset (offset limit : Z) : Z := Double.add offset limit.

Definition prevOffset (offset limit : Z) : Z :=
  if Double.sub offset limit <? 0 then 0 else Double.sub offset limit.

(** The offset after [k] times next page, and after [k] times previous
    page, in the arithmetic of doubles. *)
Fixpoint nextOffsets (k : nat) (offset limit : Z) : Z :=
  match k with
  | O => offset
  | S k' => nextOffsets k' (nextOffset offset limit) limit
  end.

Fixpoint prevOffsets (k : nat) (offset limit : Z) : Z :=
  match k with
  | O => offset
  | S k' => prevOffsets k' (prevOffset offset limit) limit
  end.

(** The range of the pager as the source computes it, in the arithmetic of
    doubles: [state.offset + 1] and [state.offset + state.limit]. *)
Definition pagerInDoubles (state : State.t) (pg : PaginationProps) : Prop :=
  currentItemFrom pg = Double.add (State.offset state) 1
  /\ currentItemTo pg = Double.add (State.offset state) (State.limit state).

(** * Facts about the Date built-ins *)
Section DateFacts.

Import Date.

Ltac floor_lia := Z.to_euclidean_division_equations; lia.

Lemma DaysInYear_cases y : DaysInYear y = 365 \/ DaysInYear y = 366.
Proof.
  unfold DaysInYear.
  destruct (y mod 4 =? 0), (y mod 100 =? 0), (y mod 400 =? 0); cbn; auto.
Qed.

(** A year starts [DaysInYear] days after the year before it. *)
Lemma DayFromYear_succ y :
  DayFromYear (y + 1) = DayFromYear y + DaysInYear y.
Proof.
  unfold DayFromYear, DaysInYear.
  destruct (Z.eqb_spec (y mod 4) 0), (Z.eqb_spec (y mod 100) 0),
    (Z.eqb_spec (y mod 400) 0); cbn [negb]; floor_lia.
Qed.

Lemma DayFromYear_lt y y' : y < y' -> DayFromYear y < DayFromYear y'.
Proof. unfold DayFromYear. intros Hlt. floor_lia. Qed.

Lemma DayFromYear_le_inv y y' : DayFromYear y <= DayFromYear y' -> y <= y'.
Proof.
  intros Hle. destruct (Z_lt_le_dec y' y) as [Hlt|]; [|assumption].
  apply DayFromYear_lt in Hlt. lia.
Qed.

(** The mean-year estimate is within one year of the year of day [d]. *)
Lemma year_estimate d :
  DayFromYear (1970 + 400 * d / 146097 - 1) <= d
  < DayFromYear (1970 + 400 * d / 146097 + 2).
Proof. unfold DayFromYear. floor_lia. Qed.

(** The year computed is the one whose days contain the day of [t]. *)
Lemma YearFromTime_days t :
  DayFromYear (YearFromTime t) <= Day t < DayFromYear (YearFromTime t + 1).
Proof.
  unfold YearFromTime. cbv zeta.
  pose proof (year_estimate (Day t)) as [Hlo Hhi].
  set (y := 1970 + 400 * Day t / 146097) in *.
  destruct (Z.ltb_spec (Day t) (DayFromYear y)) as [Hlt|Hge].
  - replace (y - 1 + 1) with y by lia. lia.
  - destruct (Z.leb_spec (DayFromYear (y + 1)) (Day t)) as [Hle|Hgt].
    + replace (y + 1 + 1) with (y + 2) by lia. lia.
    + lia.
Qed.

(** [YearFromTime t] is the largest [y] with [TimeFromYear y <= t], as
    ECMAScript defines it. *)
Lemma YearFromTime_spec t :
  TimeFromYear (YearFromTime t) <= t
  /\ forall y, TimeFromYear y <= t -> y <= YearFromTime t.
Proof.
  pose proof (YearFromTime_days t) as [Hlo Hhi].
  unfold TimeFromYear, Day, msPerDay in *. split.
  - floor_lia.
  - intros y Hy.
    assert (Hd : DayFromYear y <= t / 86400000) by floor_lia.
    assert (Hlt : DayFromYear y < DayFromYear (YearFromTime t + 1)) by lia.
    destruct (Z_lt_le_dec (YearFromTime t) y) as [Hbad|]; [|assumption].
    assert (YearFromTime t + 1 <= y) as Hle by lia.
    destruct (Z.eq_dec (YearFromTime t + 1) y) as [<-|Hne]; [lia|].
    assert (DayFromYear (YearFromTime t + 1) < DayFromYear y)
      by (apply DayFromYear_lt; lia).
    lia.
Qed.

Lemma YearFromTime_nonneg t : 0 <= t -> 1970 <= YearFromTime t.
Proof.
  intros Ht. apply (proj2 (YearFromTime_spec t)).
  unfold TimeFromYear. change (DayFromYear 1970) with 0. lia.
Qed.

Lemma DayWithinYear_range t :
  0 <= DayWithinYear t < DaysInYear (YearFromTime t).
Proof.
  unfold DayWithinYear.
  pose proof (YearFromTime_days t) as [Hlo Hhi].
  rewrite DayFromYear_succ in Hhi. lia.
Qed.

Lemma InLeapYear_cases t :
  (InLeapYear t = 0 /\ DaysInYear (YearFromTime t) = 365)
  \/ (InLeapYear t = 1 /\ DaysInYear (YearFromTime t) = 366).
Proof.
  unfold InLeapYear.
  destruct (DaysInYear_cases (YearFromTime t)) as [H|H]; rewrite H; cbn; auto.
Qed.

Lemma MonthFromTime_range t : 0 <= MonthFromTime t <= 11.
Proof.
  unfold MonthFromTime. cbv zeta.
  repeat match goal with
         | |- context [if ?c then _ else _] => destruct c
         end; lia.
Qed.

(** The day of the month is between 1 and 31. *)
Lemma DateFromTime_range t : 1 <= DateFromTime t <= 31.
Proof.
  pose proof (DayWithinYear_range t) as Hd.
  unfold DateFromTime, MonthFromTime. cbv zeta.
  destruct (InLeapYear_cases t) as [[-> Hy]|[-> Hy]]; rewrite Hy in Hd;
    repeat match goal with
           | |- context [if ?a <? ?b then _ else _] =>
               destruct (Z.ltb_spec a b)
           end; lia.
Qed.

Lemma HourFromTime_range t : 0 <= HourFromTime t <= 23.
Proof. unfold HourFromTime, HoursPerDay, msPerHour. floor_lia. Qed.

Lemma MinFromTime_range t : 0 <= MinFromTime t <= 59.
Proof. unfold MinFromTime, MinutesPerHour, msPerMinute. floor_lia. Qed.

(** [Date.UTC] and the getters agree on the moments of the examples. *)
Example UTC_2020_0030 :
  UTC 2020 0 1 0 30 0 0 = 1577838600000
  /\ (YearFromTime 1577838600000, MonthFromTime 1577838600000,
      DateFromTime 1577838600000, HourFromTime 1577838600000,
      MinFromTime 1577838600000) = (2020, 0, 1, 0, 30).
Proof. split; reflexivity. Qed.

Example UTC_2020_0200 :
  UTC 2020 0 1 2 0 0 0 = 1577844000000
  /\ (YearFromTime 1577844000000, MonthFromTime 1577844000000,
      DateFromTime 1577844000000, HourFromTime 1577844000000,
      MinFromTime 1577844000000) = (2020, 0, 1, 2, 0).
Proof. split; reflexivity. Qed.

(** Well-known dates, among them a leap day and a day before 1970. *)
Example getters_known_dates :
  (YearFromTime 951782400000, MonthFromTime 951782400000,
   DateFromTime 951782400000) = (2000, 1, 29)
  /\ (YearFromTime (-1), MonthFromTime (-1), DateFromTime (-1),
      HourFromTime (-1), MinFromTime (-1)) = (1969, 11, 31, 23, 59)
  /\ (YearFromTime 1572825600000, MonthFromTime 1572825600000,
      DateFromTime 1572825600000) = (2019, 10, 4).
Proof. repeat split; reflexivity. Qed.

End DateFacts.

(** * getTimeAgo *)
Section TimeAgoFacts.

(** One arm of the chain of tests: for an amount that is not negative,
    testing [> 0] and [> 1] is naming the unit unless it is zero, in the
    singular when it is one. *)
Lemma positive_arm (x : Z) (s p other : string) :
  0 <= x ->
  (if JS.gt (Some x) 0 then
     JS.toString (Some x) ++ " " ++ (if JS.gt (Some x) 1 then p else s) ++ " ago"
   else other)
  = (if x =? 0 then other
     else Spec.wording {| Spec.amount := x; Spec.singular := s; Spec.plural := p |}).
Proof.
  intros Hx. unfold JS.gt, Spec.wording. cbn [Spec.amount Spec.singular Spec.plural].
  destruct (Z.gtb_spec x 0) as [Hpos|Hzero].
  - destruct (Z.eqb_spec x 0) as [?|_]; [lia|].
    destruct (Z.gtb_spec x 1), (Z.eqb_spec x 1); try lia; reflexivity.
  - destruct (Z.eqb_spec x 0) as [_|?]; [reflexivity|lia].
Qed.

(** A date that cannot be read, or an elapsed time beyond the range of
    Date, makes every field NaN and every test false. *)
Lemma getTimeAgo_invalid Date_parse now time :
  Date.TimeClip (JS.sub (Some now) (Date_parse (time ++ " UTC"))) = None ->
  getTimeAgo Date_parse now time = "just now".
Proof. intros H. unfold getTimeAgo. rewrite H. reflexivity. Qed.

End TimeAgoFacts.

(** Were the string not readable at all, the label would be "just now". *)
Example getTimeAgo_unreadable :
  getTimeAgo (fun _ => None) (Date.UTC 2020 0 1 2 0 0 0) "2020-01-01T00:30:00Z"
  = "just now".
Proof. reflexivity. Qed.

(** C7 (as amended).  For a timestamp that is not later than now, the label
    names the largest non-zero unit among years, months, days, hours and
    minutes, in the singular when it is exactly 1 and in the plural
    otherwise, and is "just now" when all five are zero; the units are the
    calendar fields of the elapsed time [now - before] taken as a date
    counted from 1970-01-01T00:00:00Z. *)
Theorem getTimeAgo_largest_unit_of_elapsed :
  forall (Date_parse : string -> option Z) (now : Z) (time : string) (before : Z),
    Date_parse (time ++ " UTC") = Some before ->
    0 <= now - before <= Date.maxTime ->
    getTimeAgo Date_parse now time
    = Spec.largestNonZeroUnit (Spec.elapsedFields (now - before)).
Proof.
  intros Date_parse now time before Hparse [Hlo Hhi].
  unfold getTimeAgo. rewrite Hparse.
  cbn [JS.sub]. unfold Date.TimeClip.
  destruct (Z.gtb_spec (Z.abs (now - before)) Date.maxTime) as [Hbig|_];
    [lia|].
  unfold Date.getUTCFullYear, Date.getUTCMonth, Date.getUTCDate,
    Date.getUTCHours, Date.getUTCMinutes.
  cbn [option_map JS.sub].
  pose proof (YearFromTime_nonneg _ Hlo) as Hy.
  pose proof (MonthFromTime_range (now - before)) as Hm.
  pose proof (DateFromTime_range (now - before)) as Hd.
  pose proof (HourFromTime_range (now - before)) as Hh.
  pose proof (MinFromTime_range (now - before)) as Hmi.
  unfold Spec.elapsedFields, Spec.largestNonZeroUnit.
  cbn [Spec.amount].
  rewrite !positive_arm by lia. reflexivity.
Qed.

Lemma getTimeAgo_largest_unit_of_elapsed_witness :
  getTimeAgo (readsAs "10/25/2019 14:30:00 UTC" (Date.UTC 2019 9 25 14 30 0 0))
             (Date.UTC 2019 10 4 9 0 0 0) "10/25/2019 14:30:00"
  = Spec.largestNonZeroUnit
      (Spec.elapsedFields
         (Date.UTC 2019 10 4 9 0 0 0 - Date.UTC 2019 9 25 14 30 0 0)).
Proof.
  apply (getTimeAgo_largest_unit_of_elapsed
           (readsAs "10/25/2019 14:30:00 UTC" (Date.UTC 2019 9 25 14 30 0 0))
           (Date.UTC 2019 10 4 9 0 0 0) "10/25/2019 14:30:00"
           (Date.UTC 2019 9 25 14 30 0 0)).
  - reflexivity.
  - vm_compute. split; discriminate.
Defined.

(** C7 as stated fails, whichever way the units are taken, on timestamps
    written month/day/year as engines read them.  Ninety minutes apart, the
    fields of the two moments differ by 2 hours and -30 minutes, so their
    subtraction names 2 hours, while the code reads 1 hour off the elapsed
    time.  And for a timestamp one second in the future the five fields of
    the two moments all agree, while the elapsed time of -1000 ms reads as
    1969-12-31T23:59:59Z: its largest non-zero unit is the year, -1, which
    the code passes over to name 11 months. *)
Lemma getTimeAgo_not_field_subtraction :
  ((forall Date_parse : string -> option Z,
       Date_parse ("1/1/2020 00:30:00" ++ " UTC")
       = Some (Date.UTC 2020 0 1 0 30 0 0) ->
       getTimeAgo Date_parse (Date.UTC 2020 0 1 2 0 0 0) "1/1/2020 00:30:00"
       = "1 hour ago")
   /\ Spec.largestNonZeroUnit
        (Spec.fieldSubtraction (Date.UTC 2020 0 1 2 0 0 0)
                               (Date.UTC 2020 0 1 0 30 0 0))
      = "2 hours ago")
  /\ ((forall Date_parse : string -> option Z,
         Date_parse ("1/1/2020 02:00:01" ++ " UTC")
         = Some (Date.UTC 2020 0 1 2 0 1 0) ->
         getTimeAgo Date_parse (Date.UTC 2020 0 1 2 0 0 0) "1/1/2020 02:00:01"
         = "11 months ago")
      /\ Spec.largestNonZeroUnit
           (Spec.fieldSubtraction (Date.UTC 2020 0 1 2 0 0 0)
                                  (Date.UTC 2020 0 1 2 0 1 0))
         = "just now"
      /\ Spec.largestNonZeroUnit
           (Spec.elapsedFields
              (Date.UTC 2020 0 1 2 0 0 0 - Date.UTC 2020 0 1 2 0 1 0))
         = "-1 years ago").
Proof.
  split; split.
  - intros Date_parse H. unfold getTimeAgo. rewrite H. vm_compute. reflexivity.
  - vm_compute. reflexivity.
  - intros Date_parse H. unfold getTimeAgo. rewrite H. vm_compute. reflexivity.
  - split; vm_compute; reflexivity.
Qed.

(** * reducer *)
Section ReducerFacts.

(** What the reducer does for each member of ReducerActions. *)
Lemma reducer_SET_NEXT_PAGE state :
  reducer state SET_NEXT_PAGE
  = Some (with_offset state (State.offset state + State.limit state)).
Proof. reflexivity. Qed.

Lemma reducer_SET_PREV_PAGE state :
  reducer state SET_PREV_PAGE
  = Some (with_offset state (Z.max 0 (State.offset state - State.limit state))).
Proof.
  unfold reducer. cbn [type SET_PREV_PAGE String.eqb Ascii.eqb Bool.eqb].
  do 2 f_equal.
  destruct (Z.ltb_spec (State.offset state - State.limit state) 0); lia.
Qed.

Lemma reducer_SET_SELECTED_SORT state sort :
  reducer state (SET_SELECTED_SORT sort) = Some (with_sort state sort).
Proof. reflexivity. Qed.

Lemma reducer_SET_REVIEWS state reviews :
  reducer state (SET_REVIEWS reviews)
  = Some (with_reviews state (Some (orEmpty reviews))).
Proof. reflexivity. Qed.

(** The reducer returns a state exactly for the seven types. *)
Lemma reducer_returns state action :
  reducer state action = None <-> recognized (type action) = false.
Proof.
  unfold reducer, recognized, actionTypes, existsb.
  repeat match goal with
         | |- context [String.eqb (type action) ?s] =>
             destruct (String.eqb (type action) s)
         end; cbn [orb]; split; intros H; congruence.
Qed.

(** The properties every action keeps: an offset that is not negative
    stays so, and the page size is copied. *)
Lemma reducer_keeps_limit state action state' :
  reducer state action = Some state' ->
  State.limit state' = State.limit state.
Proof.
  unfold reducer.
  repeat match goal with
         | |- context [String.eqb (type action) ?s] =>
             destruct (String.eqb (type action) s)
         end; intros H; inversion H; reflexivity.
Qed.

Lemma reducer_keeps_offset_nonneg state action state' :
  reducer state action = Some state' ->
  0 <= State.offset state -> 0 <= State.limit state ->
  0 <= State.offset state'.
Proof.
  unfold reducer.
  repeat match goal with
         | |- context [String.eqb (type action) ?s] =>
             destruct (String.eqb (type action) s)
         end; intros H Ho Hl; inversion H; cbn [State.offset with_offset];
    try assumption; try lia.
  destruct (Z.ltb_spec (State.offset state - State.limit state) 0); lia.
Qed.

(** Once loaded, the reviews are never reset to [null]. *)
Lemma reducer_keeps_reviews_loaded state action state' :
  reducer state action = Some state' ->
  State.reviews state <> None -> State.reviews state' <> None.
Proof.
  unfold reducer.
  repeat match goal with
         | |- context [String.eqb (type action) ?s] =>
             destruct (String.eqb (type action) s)
         end; intros H Hr; inversion H; cbn; try assumption; discriminate.
Qed.

(** Dispatching SET_REVIEWS actions alone always yields a state. *)
Lemma dispatchAll_SET_REVIEWS payloads : forall state,
  exists state', dispatchAll state (map SET_REVIEWS payloads) = Some state'.
Proof.
  induction payloads as [|p ps IH]; intros state; cbn [map dispatchAll].
  - eauto.
  - rewrite reducer_SET_REVIEWS. apply IH.
Qed.

Lemma dispatchAll_app state xs ys :
  dispatchAll state (xs ++ ys)
  = match dispatchAll state xs with
    | Some mid => dispatchAll mid ys
    | None => None
    end.
Proof.
  revert state. induction xs as [|x xs IH]; intros state; cbn [app dispatchAll].
  - reflexivity.
  - destruct (reducer state x); [apply IH|reflexivity].
Qed.

(** The states that sequences of actions lead to are the reachable ones. *)
Lemma dispatchAll_reachable actions : forall state state',
  reachable state -> dispatchAll state actions = Some state' ->
  reachable state'.
Proof.
  induction actions as [|a rest IH]; intros state state' Hreach Hrun;
    cbn [dispatchAll] in Hrun.
  - inversion Hrun. subst. exact Hreach.
  - destruct (reducer state a) as [mid|] eqn:Hstep; [|discriminate].
    apply (IH mid state'); [|exact Hrun].
    apply (reachable_dispatch state mid a Hreach Hstep).
Qed.

End ReducerFacts.

(** C2 as stated fails: an action of another type does not give the state
    back; the reducer returns [undefined]. *)
Lemma reducer_unrecognized_not_noop :
  recognized "RESET" = false
  /\ reducer initialState {| type := "RESET"; args := Args.none |} = None
  /\ reducer initialState {| type := "RESET"; args := Args.none |}
     <> Some initialState.
Proof. repeat split. discriminate. Qed.

(** C2 (as amended).  For every state and every action whose type is not one
    of the seven of ReducerActions, the reducer does not throw and returns
    [undefined] instead of the state: the switch has no default case.  For
    the seven types it returns a state. *)
Theorem reducer_unrecognized_undefined :
  forall (state : State.t) (action : Action),
    (recognized (type action) = false -> reducer state action = None)
    /\ (recognized (type action) = true ->
        exists state', reducer state action = Some state').
Proof.
  intros state action. pose proof (reducer_returns state action) as [Hn Hr].
  split.
  - exact Hr.
  - intros Hrec. destruct (reducer state action) as [state'|].
    + exists state'. reflexivity.
    + rewrite (Hn eq_refl) in Hrec. discriminate.
Qed.

Lemma reducer_unrecognized_undefined_witness :
  reducer initialState {| type := "CLEAR"; args := Args.none |} = None.
Proof.
  apply (proj1 (reducer_unrecognized_undefined initialState
                  {| type := "CLEAR"; args := Args.none |})).
  reflexivity.
Defined.



(** * The arithmetic of doubles on the offsets *)
Section DoubleFacts.

(** A safe integer is not rounded. *)
Lemma fl_safe z : Double.safe z -> Double.fl z = z.
Proof.
  unfold Double.safe, Double.fl, Double.ulp. intros Hz. cbv zeta.
  destruct (Z.ltb_spec (Z.abs z) Double.two53) as [Hlt|Hge].
  - rewrite Z.div_1_r, Z.mod_1_r. cbn. lia.
  - assert (Hcases : z = Double.two53 \/ z = - Double.two53) by lia.
    destruct Hcases as [-> | ->]; vm_compute; reflexivity.
Qed.

(** Above 2^53 the doubles are 2 apart, above 2^54 they are 4 apart; a
    value halfway goes to the double whose significand is even. *)
Example fl_ties_to_even :
  Double.fl 9007199254740993 = 9007199254740992
  /\ Double.fl 9007199254740995 = 9007199254740996
  /\ Double.fl (-9007199254740993) = -9007199254740992
  /\ Double.fl 18014398509481986 = 18014398509481984
  /\ Double.fl 18014398509481987 = 18014398509481988
  /\ Double.fl 18014398509481990 = 18014398509481992.
Proof. vm_compute. repeat split. Qed.

Lemma nextOffset_exact offset limit :
  Double.safe (offset + limit) -> nextOffset offset limit = offset + limit.
Proof. intros H. unfold nextOffset, Double.add. apply fl_safe, H. Qed.

Lemma prevOffset_exact offset limit :
  Double.safe (offset - limit) ->
  prevOffset offset limit = Z.max 0 (offset - limit).
Proof.
  intros H. unfold prevOffset, Double.sub. rewrite (fl_safe _ H).
  destruct (Z.ltb_spec (offset - limit) 0); lia.
Qed.

(** Where the sum and the difference are safe integers, the offsets the
    reducer stores are those the doubles give. *)
Lemma reducer_paging_exact state :
  (Double.safe (State.offset state + State.limit state) ->
   reducer state SET_NEXT_PAGE
   = Some (with_offset state
             (nextOffset (State.offset state) (State.limit state))))
  /\ (Double.safe (State.offset state - State.limit state) ->
      reducer state SET_PREV_PAGE
      = Some (with_offset state
                (prevOffset (State.offset state) (State.limit state)))).
Proof.
  split; intros H.
  - rewrite (nextOffset_exact _ _ H). apply reducer_SET_NEXT_PAGE.
  - rewrite (prevOffset_exact _ _ H). apply reducer_SET_PREV_PAGE.
Qed.

(** [k] pages on, and [k] pages back, while every sum is a safe integer. *)
Lemma nextOffsets_exact k : forall offset limit,
  0 <= offset -> 0 <= limit ->
  Double.safe (offset + Z.of_nat k * limit) ->
  nextOffsets k offset limit = offset + Z.of_nat k * limit.
Proof.
  unfold Double.safe.
  induction k as [|k IH]; intros offset limit Ho Hl Hs; cbn [nextOffsets].
  - lia.
  - assert (0 <= Z.of_nat k * limit) by (apply Z.mul_nonneg_nonneg; lia).
    rewrite nextOffset_exact by (unfold Double.safe; lia).
    rewrite IH by lia. lia.
Qed.

Lemma prevOffsets_exact k : forall offset limit,
  0 <= offset -> 0 <= limit ->
  Double.safe offset -> Double.safe limit ->
  prevOffsets k offset limit = Z.max 0 (offset - Z.of_nat k * limit).
Proof.
  unfold Double.safe.
  induction k as [|k IH]; intros offset limit Ho Hl Hso Hsl; cbn [prevOffsets].
  - lia.
  - assert (0 <= Z.of_nat k * limit) by (apply Z.mul_nonneg_nonneg; lia).
    rewrite prevOffset_exact by (unfold Double.safe; lia).
    rewrite IH by lia. lia.
Qed.

End DoubleFacts.

(** C4 as stated fails: the offsets are doubles.  9007199254740994, which
    is 2^53 + 2, is a double and is at least the page size 1; the previous
    page is computed as 2^53 + 1, which is halfway between two doubles and is
    rounded to 2^53, and the next page from there as 2^53 + 1 again, rounded
    to 2^53: the offset comes back as 9007199254740992. *)
Lemma prev_then_next_rounds :
  1 <= 9007199254740994
  /\ Double.fl 9007199254740994 = 9007199254740994
  /\ prevOffset 9007199254740994 1 = 9007199254740992
  /\ nextOffset 9007199254740992 1 = 9007199254740992
  /\ nextOffset (prevOffset 9007199254740994 1) 1 <> 9007199254740994.
Proof. vm_compute. repeat split; discriminate. Qed.

(** C4 (as amended).  From a state whose offset is at least its page size,
    where offset, page size and their difference are integers of magnitude
    at most 2^53, SET_PREV_PAGE followed by SET_NEXT_PAGE gives the state
    back, its offset in particular; and the doubles the source computes are
    those integers. *)
Theorem prev_then_next_round_trip :
  forall state : State.t,
    State.limit state <= State.offset state ->
    Double.safe (State.offset state) ->
    Double.safe (State.limit state) ->
    Double.safe (State.offset state - State.limit state) ->
    dispatchAll state [SET_PREV_PAGE; SET_NEXT_PAGE] = Some state
    /\ option_map State.offset (dispatchAll state [SET_PREV_PAGE; SET_NEXT_PAGE])
       = Some (State.offset state)
    /\ nextOffset (prevOffset (State.offset state) (State.limit state))
                  (State.limit state)
       = State.offset state.
Proof.
  intros state Hle Ho Hl Hd.
  assert (H : dispatchAll state [SET_PREV_PAGE; SET_NEXT_PAGE] = Some state).
  { cbn [dispatchAll]. rewrite reducer_SET_PREV_PAGE, reducer_SET_NEXT_PAGE.
    destruct state as [so off lim rs tot avg ht ha sf].
    unfold with_offset. cbn [State.sort State.offset State.limit State.reviews
      State.total State.average State.hasTotal State.hasAverage State.showForm]
      in *.
    do 2 f_equal. lia. }
  rewrite H. split; [reflexivity|]. split; [reflexivity|].
  rewrite (prevOffset_exact _ _ Hd).
  rewrite nextOffset_exact; [lia|].
  replace (Z.max 0 (State.offset state - State.limit state) + State.limit state)
    with (State.offset state) by lia.
  exact Ho.
Qed.

Lemma prev_then_next_round_trip_witness :
  dispatchAll (with_offset initialState 20) [SET_PREV_PAGE; SET_NEXT_PAGE]
  = Some (with_offset initialState 20)
  /\ option_map State.offset
       (dispatchAll (with_offset initialState 20) [SET_PREV_PAGE; SET_NEXT_PAGE])
     = Some (State.offset (with_offset initialState 20))
  /\ nextOffset (prevOffset (State.offset (with_offset initialState 20))
                            (State.limit (with_offset initialState 20)))
                (State.limit (with_offset initialState 20))
     = State.offset (with_offset initialState 20).
Proof.
  apply (prev_then_next_round_trip (with_offset initialState 20));
    vm_compute; discriminate.
Defined.

(** Below the page size the round trip does not hold: from offset 5 the
    two actions lead to offset 10. *)
Example prev_then_next_below_page_size :
  option_map State.offset
    (dispatchAll (with_offset initialState 5) [SET_PREV_PAGE; SET_NEXT_PAGE])
  = Some 10.
Proof. reflexivity. Qed.

(** C5.  SET_SELECTED_SORT with the key [k] sets the sort field to [k] and
    copies every other field, the offset among them. *)
Theorem set_sort_changes_only_sort :
  forall (state : State.t) (k : string),
    exists state',
      reducer state (SET_SELECTED_SORT k) = Some state'
      /\ State.sort state' = k
      /\ State.offset state' = State.offset state
      /\ State.limit state' = State.limit state
      /\ State.reviews state' = State.reviews state
      /\ State.total state' = State.total state
      /\ State.average state' = State.average state
      /\ State.hasTotal state' = State.hasTotal state
      /\ State.hasAverage state' = State.hasAverage state
      /\ State.showForm state' = State.showForm state.
Proof.
  intros state k. exists (with_sort state k).
  split; [apply reducer_SET_SELECTED_SORT|]. repeat split.
Qed.

(** C9.  Every state reachable from the initial one, that is, the state
    after any sequence of actions, has an offset that is not negative and
    the page size 10; and no action changes the page size of any state. *)
Theorem reachable_offset_limit :
  (forall state : State.t,
      reachable state -> 0 <= State.offset state /\ State.limit state = 10)
  /\ (forall (actions : list Action) (state : State.t),
         dispatchAll initialState actions = Some state ->
         0 <= State.offset state /\ State.limit state = 10)
  /\ (forall (state state' : State.t) (action : Action),
         reducer state action = Some state' ->
         State.limit state' = State.limit state).
Proof.
  assert (Hinv : forall state : State.t,
             reachable state ->
             0 <= State.offset state /\ State.limit state = 10).
  { intros state Hreach.
    induction Hreach as [|state state' action _ [IHo IHl] Hstep].
    - cbn. lia.
    - split.
      + apply (reducer_keeps_offset_nonneg state action state' Hstep); lia.
      + rewrite (reducer_keeps_limit state action state' Hstep). exact IHl. }
  split; [exact Hinv|]. split.
  - intros actions state Hrun. apply Hinv.
    apply (dispatchAll_reachable actions initialState state);
      [apply reachable_initial|exact Hrun].
  - intros state state' action. apply reducer_keeps_limit.
Qed.

Lemma reachable_offset_limit_witness :
  0 <= State.offset (with_offset (with_sort initialState "Rating:asc") 10)
  /\ State.limit (with_offset (with_sort initialState "Rating:asc") 10) = 10.
Proof.
  apply (proj1 (proj2 reachable_offset_limit)
           [SET_NEXT_PAGE; SET_NEXT_PAGE; SET_SELECTED_SORT "Rating:asc";
            SET_PREV_PAGE]
           (with_offset (with_sort initialState "Rating:asc") 10)).
  reflexivity.
Defined.

(** * What is rendered *)
Section RenderFacts.

Variable Date_parse : string -> option Z.
Variable Date_now : Z.

(** The list region shows its loading text exactly while the reviews are
    [null]. *)
Lemma comments_loading_iff state :
  Reviews_comments Date_parse Date_now state
  = Fragment [Text "Loading reviews..."]
  <-> State.reviews state = None.
Proof.
  unfold Reviews_comments. destruct (State.reviews state) as [rs|].
  - destruct (negb (Nat.eqb (length rs) 0)); split; intros H; discriminate.
  - split; reflexivity.
Qed.

(** No entry of the review list holds a pager. *)
Lemma pagers_comment review :
  pagers (Reviews_comment Date_parse Date_now review) = [].
Proof.
  unfold Reviews_comment. destruct (verifiedPurchaser review); reflexivity.
Qed.

Lemma pagers_comments_map reviews :
  flat_map pagers (map (Reviews_comment Date_parse Date_now) reviews) = [].
Proof.
  induction reviews as [|r rs IH]; cbn [map flat_map].
  - reflexivity.
  - rewrite pagers_comment, IH. reflexivity.
Qed.

(** The pager of a page that is loaded and not empty. *)
Lemma pagers_loaded state reviews :
  State.reviews state = Some reviews -> reviews <> [] ->
  pagers (Reviews_comments Date_parse Date_now state)
  = [ {| textShowRows := "";
         currentItemFrom := State.offset state + 1;
         currentItemTo := State.offset state + State.limit state;
         textOf := "of";
         totalItems := State.total state;
         onNextClick := SET_NEXT_PAGE;
         onPrevClick := SET_PREV_PAGE |} ].
Proof.
  intros Hrs Hne. unfold Reviews_comments. rewrite Hrs.
  destruct reviews as [|r rs]; [contradiction|].
  cbn [length Nat.eqb negb pagers flat_map app].
  change (flat_map pagers (map (Reviews_comment Date_parse Date_now) (r :: rs)))
    with (pagers (Fragment (map (Reviews_comment Date_parse Date_now) (r :: rs)))).
  cbn [pagers]. rewrite pagers_comments_map. reflexivity.
Qed.

(** While loading, and for an empty page, there is no pager. *)
Lemma pagers_absent state :
  State.reviews state = None \/ State.reviews state = Some [] ->
  pagers (Reviews_comments Date_parse Date_now state) = [].
Proof.
  intros [H|H]; unfold Reviews_comments; rewrite H; reflexivity.
Qed.

End RenderFacts.

(** C6.  The summary region shows the loading text exactly when hasTotal or
    hasAverage is false; it renders nothing exactly when both are true and
    the total is 0; and otherwise it renders the stars, the average and
    the count "(N Reviews)". *)
Theorem summary_render_rule :
  forall state : State.t,
    (Reviews_rating state = Fragment [Text "Loading summary..."]
     <-> State.hasTotal state = false \/ State.hasAverage state = false)
    /\ (Reviews_rating state = Null
        <-> State.hasTotal state = true /\ State.hasAverage state = true
            /\ State.total state = 0)
    /\ (Reviews_rating state
        = Fragment
            [ Tag "div" "t-heading-4" [Stars (State.average state)];
              Tag "span" "review__rating--average dib v-mid"
                  [NumQ (State.average state); Text " Average Rating"];
              Text " ";
              Tag "span" "review__rating--count dib v-mid"
                  [Text "("; Num (State.total state); Text " Reviews)"] ]
        <-> State.hasTotal state = true /\ State.hasAverage state = true
            /\ State.total state <> 0).
Proof.
  intros state. unfold Reviews_rating.
  destruct (State.hasTotal state), (State.hasAverage state);
    cbn [negb orb];
    try (destruct (Z.eqb_spec (State.total state) 0) as [Hz|Hnz]);
    intuition (try discriminate; try congruence).
Qed.

(** The example of the specification: before anything is loaded the summary
    shows the loading text, and with total 0 and average 0 loaded it is
    empty. *)
Example summary_first_render :
  Reviews_rating initialState = Fragment [Text "Loading summary..."]
  /\ option_map Reviews_rating
       (dispatchAll initialState [SET_TOTAL 0; SET_AVERAGE 0%Q])
     = Some Null.
Proof. split; reflexivity. Qed.




(** C10.  SET_REVIEWS with a null or undefined payload stores the empty
    list; after any SET_REVIEWS the reviews are not null and the list
    region does not show its loading text; and no sequence of SET_REVIEWS
    actions brings the loading text back. *)
Theorem set_reviews_never_null :
  (forall state : State.t,
      reducer state (SET_REVIEWS None) = Some (with_reviews state (Some [])))
  /\ (forall (state : State.t) (payload : option (list Review)),
         exists state',
           reducer state (SET_REVIEWS payload) = Some state'
           /\ State.reviews state' <> None
           /\ forall Date_parse Date_now,
               Reviews_comments Date_parse Date_now state'
               <> Fragment [Text "Loading reviews..."])
  /\ (forall (state : State.t) (payloads : list (option (list Review))),
         payloads <> [] ->
         exists state',
           dispatchAll state (map SET_REVIEWS payloads) = Some state'
           /\ State.reviews state' <> None
           /\ forall Date_parse Date_now,
               Reviews_comments Date_parse Date_now state'
               <> Fragment [Text "Loading reviews..."]).
Proof.
  assert (Hshown : forall state' : State.t,
             State.reviews state' <> None ->
             forall Date_parse Date_now,
               Reviews_comments Date_parse Date_now state'
               <> Fragment [Text "Loading reviews..."]).
  { intros state' Hr Date_parse Date_now Hload.
    apply comments_loading_iff in Hload. contradiction. }
  split; [intros state; apply reducer_SET_REVIEWS|]. split.
  - intros state payload. exists (with_reviews state (Some (orEmpty payload))).
    split; [apply reducer_SET_REVIEWS|].
    split; [discriminate|]. apply Hshown. discriminate.
  - intros state payloads Hne.
    destruct (exists_last Hne) as (front & last & ->).
    rewrite map_app, dispatchAll_app.
    destruct (dispatchAll_SET_REVIEWS front state) as [mid Hmid].
    rewrite Hmid. cbn [map dispatchAll]. rewrite reducer_SET_REVIEWS.
    eexists. split; [reflexivity|].
    split; [discriminate|]. apply Hshown. discriminate.
Qed.

Lemma set_reviews_never_null_witness :
  exists state',
    dispatchAll initialState (map SET_REVIEWS [Some [sampleReview]; None])
    = Some state'
    /\ State.reviews state' <> None
    /\ forall Date_parse Date_now,
        Reviews_comments Date_parse Date_now state'
        <> Fragment [Text "Loading reviews..."].
Proof.
  apply (proj2 (proj2 set_reviews_never_null) initialState
           [Some [sampleReview]; None]).
  discriminate.
Defined.

(** The example of the specification: before the list is loaded the region
    shows its loading text, and once an empty list has arrived it shows
    "No reviews.". *)
Example comments_first_render :
  Reviews_comments (fun _ => None) 0 initialState
  = Fragment [Text "Loading reviews..."]
  /\ option_map (Reviews_comments (fun _ => None) 0)
       (reducer initialState (SET_REVIEWS (Some [])))
     = Some (Tag "div" "review__comment bw2 bb b--muted-5 mb5 pb4"
               [ Tag "h5" "review__comment--user lh-copy mw9 t-heading-5 mv5"
                     [Text "No reviews."] ]).
Proof. split; reflexivity. Qed.

(** * More about getTimeAgo *)
Section TimeAgoElapsed.

Import Date.

Ltac floor_arith := Z.to_euclidean_division_equations; lia.

(** The year of [t] is the one whose days contain the day of [t]. *)
Lemma YearFromTime_unique t y :
  DayFromYear y <= Day t < DayFromYear (y + 1) -> YearFromTime t = y.
Proof.
  intros [Hlo Hhi]. pose proof (YearFromTime_days t) as [Ylo Yhi].
  destruct (Z.lt_trichotomy (YearFromTime t) y) as [Hlt|[Heq|Hgt]].
  - assert (DayFromYear (YearFromTime t + 1) <= DayFromYear y).
    { destruct (Z.eq_dec (YearFromTime t + 1) y) as [->|Hne]; [lia|].
      apply Z.lt_le_incl, DayFromYear_lt. lia. }
    lia.
  - exact Heq.
  - assert (DayFromYear (y + 1) <= DayFromYear (YearFromTime t)).
    { destruct (Z.eq_dec (y + 1) (YearFromTime t)) as [->|Hne]; [lia|].
      apply Z.lt_le_incl, DayFromYear_lt. lia. }
    lia.
Qed.

(** Within 365 days of the origin the year is 1970, not a leap year. *)
Lemma first_year t :
  0 <= t < 365 * msPerDay ->
  YearFromTime t = 1970 /\ InLeapYear t = 0 /\ DayWithinYear t = Day t.
Proof.
  intros Ht.
  assert (Hy : YearFromTime t = 1970).
  { apply YearFromTime_unique.
    change (DayFromYear 1970) with 0. change (DayFromYear (1970 + 1)) with 365.
    unfold Day, msPerDay in *. floor_arith. }
  unfold InLeapYear, DayWithinYear. rewrite Hy.
  change (DayFromYear 1970) with 0. repeat split. lia.
Qed.

(** Within 31 days of the origin the month is January and the date the
    day number plus one. *)
Lemma first_month t :
  0 <= t < 31 * msPerDay ->
  YearFromTime t = 1970 /\ MonthFromTime t = 0 /\ DateFromTime t = Day t + 1.
Proof.
  intros Ht.
  assert (Hd : 0 <= Day t < 31) by (unfold Day, msPerDay in *; floor_arith).
  destruct (first_year t) as (Hy & Hleap & Hdw); [unfold msPerDay in *; lia|].
  assert (Hm : MonthFromTime t = 0).
  { unfold MonthFromTime. cbv zeta. rewrite Hdw.
    destruct (Z.ltb_spec (Day t) 31); [reflexivity|lia]. }
  repeat split; [exact Hy|exact Hm|].
  unfold DateFromTime. cbv zeta. rewrite Hm, Hdw. reflexivity.
Qed.

(** The 31 days before the origin are December 1969. *)
Lemma last_month_of_1969 t :
  - (31 * msPerDay) <= t < 0 ->
  YearFromTime t = 1969 /\ MonthFromTime t = 11.
Proof.
  intros Ht.
  assert (Hd : -31 <= Day t < 0) by (unfold Day, msPerDay in *; floor_arith).
  assert (Hy : YearFromTime t = 1969).
  { apply YearFromTime_unique.
    change (DayFromYear 1969) with (-365).
    change (DayFromYear (1969 + 1)) with 0. lia. }
  split; [exact Hy|].
  unfold MonthFromTime, DayWithinYear, InLeapYear. cbv zeta. rewrite Hy.
  change (DayFromYear 1969) with (-365).
  change (DaysInYear 1969 =? 366) with false. cbv iota.
  repeat match goal with
         | |- context [if ?a <? ?b then _ else _] =>
             destruct (Z.ltb_spec a b); [lia|]
         end.
  reflexivity.
Qed.

(** From 365 days on the year is past 1970; a count of [n] years holds
    between [365 * n] and [366 * (n + 1)] days. *)
Lemma later_years t :
  365 * msPerDay <= t ->
  1 <= YearFromTime t - 1970
  /\ 365 * (YearFromTime t - 1970) <= Day t
     < 366 * (YearFromTime t - 1970 + 1).
Proof.
  intros Ht.
  assert (Hd : 365 <= Day t) by (unfold Day, msPerDay in *; floor_arith).
  pose proof (YearFromTime_days t) as [Ylo Yhi].
  assert (Hy : 1971 <= YearFromTime t).
  { destruct (Z_lt_le_dec (YearFromTime t) 1971) as [Hlt|]; [|assumption].
    assert (DayFromYear (YearFromTime t + 1) <= DayFromYear 1971).
    { destruct (Z.eq_dec (YearFromTime t + 1) 1971) as [->|Hne]; [lia|].
      apply Z.lt_le_incl, DayFromYear_lt. lia. }
    change (DayFromYear 1971) with 365 in *. lia. }
  split; [lia|]. revert Ylo Yhi Hy. generalize (YearFromTime t) as y.
  intros y. unfold DayFromYear. intros Ylo Yhi Hy. floor_arith.
Qed.

(** For a timestamp that is read, and an elapsed time within the range of
    Date, the label is the chain of tests on the five fields. *)
Lemma getTimeAgo_fields Date_parse now time before :
  Date_parse (time ++ " UTC") = Some before ->
  Z.abs (now - before) <= maxTime ->
  getTimeAgo Date_parse now time
  = timeAgoOf (YearFromTime (now - before) - 1970)
              (MonthFromTime (now - before))
              (DateFromTime (now - before) - 1)
              (HourFromTime (now - before))
              (MinFromTime (now - before)).
Proof.
  intros Hparse Hrange. unfold getTimeAgo. rewrite Hparse.
  cbn [JS.sub]. unfold TimeClip.
  destruct (Z.gtb_spec (Z.abs (now - before)) maxTime) as [Hbig|_]; [lia|].
  reflexivity.
Qed.

(** The chain of tests yields one of the labels when the amounts are fields
    of a date. *)
Lemma timeAgoOf_label y m d h mi :
  0 <= m <= 11 -> 0 <= d <= 30 -> 0 <= h <= 23 -> 0 <= mi <= 59 ->
  TimeAgoLabel (timeAgoOf y m d h mi).
Proof.
  intros Hm Hd Hh Hmi. unfold timeAgoOf.
  destruct (Z.gtb_spec y 0); [apply label_years; lia|].
  destruct (Z.gtb_spec m 0); [apply label_months; lia|].
  destruct (Z.gtb_spec d 0); [apply label_days; lia|].
  destruct (Z.gtb_spec h 0); [apply label_hours; lia|].
  destruct (Z.gtb_spec mi 0); [apply label_minutes; lia|].
  apply label_just_now.
Qed.

End TimeAgoElapsed.

(** * The label is never "1 hours ago" *)
Section NeverOneHours.

Ltac peel H s :=
  repeat (destruct s as [|? s]; cbn [append] in H;
          [try discriminate H|injection H as ? H]).

(** Only "1" before " hours ago" makes "1 hours ago", and no other unit
    name does. *)
Lemma one_hours_parts (s w : string) :
  In w ["year"; "years"; "month"; "months"; "day"; "days"; "hour"; "hours";
        "minute"; "minutes"] ->
  s ++ " " ++ w ++ " ago" = "1 hours ago" ->
  s = "1" /\ w = "hours".
Proof.
  intros Hin H. cbn [In] in Hin.
  repeat (destruct Hin as [<-|Hin]; [cbn [append] in H; peel H s|]);
    try contradiction; try (destruct s; discriminate H).
  subst. split; reflexivity.
Qed.

Lemma toString_not_1 (h : Z) : 2 <= h <= 59 -> JS.toString (Some h) <> "1".
Proof.
  intros Hh. replace h with (Z.of_nat (Z.to_nat h)) by lia.
  assert (Hk : (2 <= Z.to_nat h <= 59)%nat) by lia.
  generalize dependent (Z.to_nat h). intros k Hk.
  do 60 (destruct k as [|k]; [try lia; vm_compute; discriminate|]).
  lia.
Qed.

Lemma unitLabel_not_1_hours (n : Z) (one many : string) :
  1 <= n <= 59 \/ many = "years" ->
  one <> "hours" ->
  In one ["year"; "month"; "day"; "hour"; "minute"] ->
  In many ["years"; "months"; "days"; "hours"; "minutes"] ->
  unitLabel n one many <> "1 hours ago".
Proof.
  intros Hn Hone Hin1 Hin2 H. unfold unitLabel in H.
  destruct (Z.gtb_spec n 1) as [Hgt|Hle].
  - apply one_hours_parts in H.
    + destruct H as [Hs ->]. destruct Hn as [Hn|Hn]; [|discriminate Hn].
      apply (toString_not_1 n); [lia|exact Hs].
    + cbn [In] in *. intuition.
  - apply one_hours_parts in H.
    + destruct H as [_ ->]. apply Hone. reflexivity.
    + cbn [In] in *. intuition.
Qed.

Lemma timeAgoOf_not_1_hours y m d h mi :
  0 <= m <= 11 -> 0 <= d <= 30 -> 0 <= h <= 23 -> 0 <= mi <= 59 ->
  timeAgoOf y m d h mi <> "1 hours ago".
Proof.
  intros Hm Hd Hh Hmi. unfold timeAgoOf.
  destruct (Z.gtb_spec y 0);
    [apply unitLabel_not_1_hours; cbn [In]; auto; discriminate|].
  destruct (Z.gtb_spec m 0);
    [apply unitLabel_not_1_hours; cbn [In]; auto; try discriminate; left; lia|].
  destruct (Z.gtb_spec d 0);
    [apply unitLabel_not_1_hours; cbn [In]; auto 6; try discriminate; left; lia|].
  destruct (Z.gtb_spec h 0);
    [apply unitLabel_not_1_hours; cbn [In]; auto 6; try discriminate; left; lia|].
  destruct (Z.gtb_spec mi 0);
    [apply unitLabel_not_1_hours; cbn [In]; auto 8; try discriminate; left; lia|].
  discriminate.
Qed.

(** Whatever the engine makes of the string, and whatever the clock. *)
Lemma getTimeAgo_never_1_hours Date_parse now time :
  getTimeAgo Date_parse now time <> "1 hours ago".
Proof.
  destruct (Date_parse (time ++ " UTC")) as [before|] eqn:Hparse.
  - destruct (Z_le_gt_dec (Z.abs (now - before)) Date.maxTime) as [Hin|Hout].
    + rewrite (getTimeAgo_fields Date_parse now time before Hparse Hin).
      pose proof (MonthFromTime_range (now - before)).
      pose proof (DateFromTime_range (now - before)).
      pose proof (HourFromTime_range (now - before)).
      pose proof (MinFromTime_range (now - before)).
      apply timeAgoOf_not_1_hours; lia.
    + rewrite getTimeAgo_invalid; [discriminate|].
      rewrite Hparse. cbn [JS.sub]. unfold Date.TimeClip.
      destruct (Z.gtb_spec (Z.abs (now - before)) Date.maxTime);
        [reflexivity|lia].
  - rewrite getTimeAgo_invalid; [discriminate|].
    rewrite Hparse. reflexivity.
Qed.

End NeverOneHours.

(** C1 as stated fails on every engine: whatever [new Date] makes of the
    string "2020-01-01T00:30:00Z UTC", the label at 2020-01-01T02:00:00Z is
    not "1 hours ago". *)
Lemma getTimeAgo_ninety_minutes_not_plural :
  ~ (exists Date_parse : string -> option Z,
        getTimeAgo Date_parse (Date.UTC 2020 0 1 2 0 0 0) "2020-01-01T00:30:00Z"
        = "1 hours ago").
Proof.
  intros [Date_parse H].
  apply (getTimeAgo_never_1_hours Date_parse _ _ H).
Qed.

(** C1 (as amended).  For the timestamp 2020-01-01T00:30:00Z looked at when
    the clock shows 2020-01-01T02:00:00Z, the code builds the string
    "2020-01-01T00:30:00Z UTC".  On an engine that does not read that string
    (an Invalid Date) the label is "just now"; on an engine that reads it as
    that moment, ninety minutes before, the label is "1 hour ago", the hour
    being one and in the singular; on no engine is it "1 hours ago". *)
Theorem getTimeAgo_ninety_minutes :
  forall Date_parse : string -> option Z,
    (Date_parse ("2020-01-01T00:30:00Z" ++ " UTC") = None ->
     getTimeAgo Date_parse (Date.UTC 2020 0 1 2 0 0 0) "2020-01-01T00:30:00Z"
     = "just now")
    /\ (Date_parse ("2020-01-01T00:30:00Z" ++ " UTC")
        = Some (Date.UTC 2020 0 1 0 30 0 0) ->
        getTimeAgo Date_parse (Date.UTC 2020 0 1 2 0 0 0) "2020-01-01T00:30:00Z"
        = "1 hour ago")
    /\ getTimeAgo Date_parse (Date.UTC 2020 0 1 2 0 0 0) "2020-01-01T00:30:00Z"
       <> "1 hours ago".
Proof.
  intros Date_parse. split; [|split].
  - intros Hnone. apply getTimeAgo_invalid. rewrite Hnone. reflexivity.
  - intros Hsome. unfold getTimeAgo. rewrite Hsome. vm_compute. reflexivity.
  - apply getTimeAgo_never_1_hours.
Qed.

(** An engine that reads no string at all rejects this one, as V8 does. *)
Lemma getTimeAgo_ninety_minutes_witness :
  getTimeAgo (fun _ => None) (Date.UTC 2020 0 1 2 0 0 0) "2020-01-01T00:30:00Z"
  = "just now".
Proof.
  apply (proj1 (getTimeAgo_ninety_minutes (fun _ => None))).
  reflexivity.
Defined.

(** X1.  A timestamp that the engine cannot read, or one so far from now
    that the elapsed time is outside the range of Date, is labelled
    "just now": every field of the invalid date is NaN and every test on
    NaN fails. *)
Theorem getTimeAgo_invalid_date_just_now :
  forall (Date_parse : string -> option Z) (now : Z) (time : string),
    Date_parse (time ++ " UTC") = None
    \/ (exists before, Date_parse (time ++ " UTC") = Some before
                       /\ Date.maxTime < Z.abs (now - before)) ->
    getTimeAgo Date_parse now time = "just now".
Proof.
  intros Date_parse now time [Hnone|(before & Hsome & Hfar)];
    apply getTimeAgo_invalid.
  - rewrite Hnone. reflexivity.
  - rewrite Hsome. cbn [JS.sub]. unfold Date.TimeClip.
    destruct (Z.gtb_spec (Z.abs (now - before)) Date.maxTime); [reflexivity|lia].
Qed.

Lemma getTimeAgo_invalid_date_just_now_witness :
  getTimeAgo (readsAs "10/25/2019 14:30:00 UTC" (- Date.maxTime))
             (Date.UTC 2019 10 4 9 0 0 0) "10/25/2019 14:30:00"
  = "just now".
Proof.
  apply (getTimeAgo_invalid_date_just_now
           (readsAs "10/25/2019 14:30:00 UTC" (- Date.maxTime))
           (Date.UTC 2019 10 4 9 0 0 0) "10/25/2019 14:30:00").
  right. exists (- Date.maxTime). split.
  - reflexivity.
  - vm_compute. reflexivity.
Defined.

(** X2.  Whatever the timestamp and the clock, the result is "just now" or
    names one unit with an amount of at least 1: at most 11 months, 30 days,
    23 hours or 59 minutes; the unit is in the plural exactly when the
    amount exceeds 1. *)
Theorem getTimeAgo_is_label :
  forall (Date_parse : string -> option Z) (now : Z) (time : string),
    TimeAgoLabel (getTimeAgo Date_parse now time).
Proof.
  intros Date_parse now time.
  destruct (Date_parse (time ++ " UTC")) as [before|] eqn:Hparse.
  - destruct (Z_le_gt_dec (Z.abs (now - before)) Date.maxTime) as [Hin|Hout].
    + rewrite (getTimeAgo_fields Date_parse now time before Hparse Hin).
      pose proof (MonthFromTime_range (now - before)).
      pose proof (DateFromTime_range (now - before)).
      pose proof (HourFromTime_range (now - before)).
      pose proof (MinFromTime_range (now - before)).
      apply timeAgoOf_label; lia.
    + rewrite getTimeAgo_invalid; [apply label_just_now|].
      rewrite Hparse. cbn [JS.sub]. unfold Date.TimeClip.
      destruct (Z.gtb_spec (Z.abs (now - before)) Date.maxTime);
        [reflexivity|lia].
  - rewrite getTimeAgo_invalid; [apply label_just_now|].
    rewrite Hparse. reflexivity.
Qed.

(** X3.  Up to 31 days the label is the elapsed time rounded down: nothing
    under a minute, whole minutes under an hour, whole hours under a day,
    whole days from then on. *)
Theorem getTimeAgo_short_elapsed :
  forall (Date_parse : string -> option Z) (now : Z) (time : string)
         (before : Z),
    Date_parse (time ++ " UTC") = Some before ->
    0 <= now - before < 31 * Date.msPerDay ->
    getTimeAgo Date_parse now time
    = if now - before <? Date.msPerMinute then "just now"
      else if now - before <? Date.msPerHour then
        unitLabel ((now - before) / Date.msPerMinute) "minute" "minutes"
      else if now - before <? Date.msPerDay then
        unitLabel ((now - before) / Date.msPerHour) "hour" "hours"
      else unitLabel ((now - before) / Date.msPerDay) "day" "days".
Proof.
  intros Date_parse now time before Hparse He.
  rewrite (getTimeAgo_fields Date_parse now time before Hparse)
    by (unfold Date.msPerDay, Date.maxTime in *; lia).
  destruct (first_month (now - before) He) as (Hy & Hm & Hd).
  rewrite Hy, Hm, Hd. generalize dependent (now - before). intros e He _ _ _.
  unfold timeAgoOf, Date.Day, Date.HourFromTime, Date.MinFromTime,
    Date.HoursPerDay, Date.MinutesPerHour, Date.msPerDay, Date.msPerHour,
    Date.msPerMinute in *.
  change (1970 - 1970 >? 0) with false. change (0 >? 0) with false. cbv iota.
  destruct (Z.ltb_spec e 60000) as [H1|H1];
    [|destruct (Z.ltb_spec e 3600000) as [H2|H2];
      [|destruct (Z.ltb_spec e 86400000) as [H3|H3]]].
  - replace (e / 86400000 + 1 - 1) with 0
      by (Z.to_euclidean_division_equations; lia).
    replace ((e / 3600000) mod 24) with 0
      by (Z.to_euclidean_division_equations; lia).
    replace ((e / 60000) mod 60) with 0
      by (Z.to_euclidean_division_equations; lia).
    reflexivity.
  - replace (e / 86400000 + 1 - 1) with 0
      by (Z.to_euclidean_division_equations; lia).
    replace ((e / 3600000) mod 24) with 0
      by (Z.to_euclidean_division_equations; lia).
    replace ((e / 60000) mod 60) with (e / 60000)
      by (Z.to_euclidean_division_equations; lia).
    change (0 >? 0) with false. cbv iota.
    destruct (Z.gtb_spec (e / 60000) 0); [reflexivity|].
    Z.to_euclidean_division_equations; lia.
  - replace (e / 86400000 + 1 - 1) with 0
      by (Z.to_euclidean_division_equations; lia).
    replace ((e / 3600000) mod 24) with (e / 3600000)
      by (Z.to_euclidean_division_equations; lia).
    change (0 >? 0) with false. cbv iota.
    destruct (Z.gtb_spec (e / 3600000) 0); [reflexivity|].
    Z.to_euclidean_division_equations; lia.
  - replace (e / 86400000 + 1 - 1) with (e / 86400000) by lia.
    destruct (Z.gtb_spec (e / 86400000) 0); [reflexivity|].
    Z.to_euclidean_division_equations; lia.
Qed.

Lemma getTimeAgo_short_elapsed_witness :
  getTimeAgo (readsAs "10/25/2019 14:30:00 UTC" (Date.UTC 2019 9 25 14 30 0 0))
             (Date.UTC 2019 9 25 16 29 59 0) "10/25/2019 14:30:00"
  = "1 hour ago".
Proof.
  apply (getTimeAgo_short_elapsed
           (readsAs "10/25/2019 14:30:00 UTC" (Date.UTC 2019 9 25 14 30 0 0))
           (Date.UTC 2019 9 25 16 29 59 0) "10/25/2019 14:30:00"
           (Date.UTC 2019 9 25 14 30 0 0)).
  - reflexivity.
  - vm_compute. split; [discriminate|reflexivity].
Defined.

(** X4.  From 365 days on the label counts years: [n] years, with [n] at
    least 1, for an elapsed time between [365 * n] and [366 * (n + 1)]
    days. *)
Theorem getTimeAgo_years :
  forall (Date_parse : string -> option Z) (now : Z) (time : string)
         (before : Z),
    Date_parse (time ++ " UTC") = Some before ->
    365 * Date.msPerDay <= now - before <= Date.maxTime ->
    exists n : Z,
      1 <= n
      /\ 365 * n <= Date.Day (now - before) < 366 * (n + 1)
      /\ getTimeAgo Date_parse now time = unitLabel n "year" "years".
Proof.
  intros Date_parse now time before Hparse [Hlo Hhi].
  exists (Date.YearFromTime (now - before) - 1970).
  destruct (later_years (now - before) Hlo) as [Hn Hdays].
  split; [exact Hn|]. split; [exact Hdays|].
  rewrite (getTimeAgo_fields Date_parse now time before Hparse)
    by (unfold Date.msPerDay, Date.maxTime in *; lia).
  unfold timeAgoOf.
  destruct (Z.gtb_spec (Date.YearFromTime (now - before) - 1970) 0);
    [reflexivity|lia].
Qed.

Lemma getTimeAgo_years_witness :
  exists n : Z,
    1 <= n
    /\ 365 * n
       <= Date.Day (Date.UTC 2019 10 4 9 0 0 0 - Date.UTC 2016 1 29 0 0 0 0)
       < 366 * (n + 1)
    /\ getTimeAgo (readsAs "2/29/2016 UTC" (Date.UTC 2016 1 29 0 0 0 0))
                  (Date.UTC 2019 10 4 9 0 0 0) "2/29/2016"
       = unitLabel n "year" "years".
Proof.
  apply (getTimeAgo_years
           (readsAs "2/29/2016 UTC" (Date.UTC 2016 1 29 0 0 0 0))
           (Date.UTC 2019 10 4 9 0 0 0) "2/29/2016"
           (Date.UTC 2016 1 29 0 0 0 0)).
  - reflexivity.
  - vm_compute. split; discriminate.
Defined.

(** X5.  A timestamp up to 31 days in the future is labelled
    "11 months ago": the negative elapsed time reads as a day of December
    1969, whose year amount, -1, fails the test and whose month is 11. *)
Theorem getTimeAgo_near_future :
  forall (Date_parse : string -> option Z) (now : Z) (time : string)
         (before : Z),
    Date_parse (time ++ " UTC") = Some before ->
    - (31 * Date.msPerDay) <= now - before < 0 ->
    getTimeAgo Date_parse now time = "11 months ago".
Proof.
  intros Date_parse now time before Hparse He.
  rewrite (getTimeAgo_fields Date_parse now time before Hparse)
    by (unfold Date.msPerDay, Date.maxTime in *; lia).
  destruct (last_month_of_1969 (now - before) He) as [Hy Hm].
  rewrite Hy, Hm. reflexivity.
Qed.

Lemma getTimeAgo_near_future_witness :
  getTimeAgo (readsAs "11/4/2019 09:00:05 UTC" (Date.UTC 2019 10 4 9 0 5 0))
             (Date.UTC 2019 10 4 9 0 0 0) "11/4/2019 09:00:05"
  = "11 months ago".
Proof.
  apply (getTimeAgo_near_future
           (readsAs "11/4/2019 09:00:05 UTC" (Date.UTC 2019 10 4 9 0 5 0))
           (Date.UTC 2019 10 4 9 0 0 0) "11/4/2019 09:00:05"
           (Date.UTC 2019 10 4 9 0 5 0)).
  - reflexivity.
  - vm_compute. split; [discriminate|reflexivity].
Defined.

(** * More about the reducer *)
Section ReducerMore.

(** [{ ...state, offset: v }] written twice keeps the last value, and
    writing back the value that is there changes nothing. *)
Lemma with_offset_twice state v w :
  with_offset (with_offset state v) w = with_offset state w.
Proof. reflexivity. Qed.

Lemma with_offset_same state : with_offset state (State.offset state) = state.
Proof. destruct state; reflexivity. Qed.

Lemma with_showForm_same state :
  with_showForm state (State.showForm state) = state.
Proof. destruct state; reflexivity. Qed.

(** A property that every action keeps is kept by every sequence. *)
Lemma dispatchAll_preserves (P : State.t -> Prop) :
  (forall state action state',
      reducer state action = Some state' -> P state -> P state') ->
  forall actions state state',
    dispatchAll state actions = Some state' -> P state -> P state'.
Proof.
  intros Hstep actions.
  induction actions as [|a rest IH]; intros state state' Hrun HP;
    cbn [dispatchAll] in Hrun.
  - inversion Hrun. subst. exact HP.
  - destruct (reducer state a) as [mid|] eqn:Hmid; [|discriminate].
    apply (IH mid state' Hrun). apply (Hstep state a mid Hmid HP).
Qed.

(** No action clears a flag that is set. *)
Lemma reducer_keeps_hasTotal state action state' :
  reducer state action = Some state' ->
  State.hasTotal state = true -> State.hasTotal state' = true.
Proof.
  unfold reducer.
  repeat match goal with
         | |- context [String.eqb (type action) ?s] =>
             destruct (String.eqb (type action) s)
         end; intros H Hf; inversion H; cbn; auto.
Qed.

Lemma reducer_keeps_hasAverage state action state' :
  reducer state action = Some state' ->
  State.hasAverage state = true -> State.hasAverage state' = true.
Proof.
  unfold reducer.
  repeat match goal with
         | |- context [String.eqb (type action) ?s] =>
             destruct (String.eqb (type action) s)
         end; intros H Hf; inversion H; cbn; auto.
Qed.

(** Only TOGGLE_REVIEW_FORM writes showForm. *)
Lemma reducer_keeps_showForm state action state' :
  reducer state action = Some state' ->
  type action <> "TOGGLE_REVIEW_FORM" ->
  State.showForm state' = State.showForm state.
Proof.
  unfold reducer. intros H Hty.
  destruct (String.eqb_spec (type action) "TOGGLE_REVIEW_FORM") as [Heq|_];
    [contradiction|].
  repeat match type of H with
         | context [String.eqb (type action) ?s] =>
             destruct (String.eqb (type action) s)
         end; inversion H; reflexivity.
Qed.

(** The summary shows its loading text exactly while a flag is unset. *)
Lemma rating_loading_iff state :
  Reviews_rating state = Fragment [Text "Loading summary..."]
  <-> State.hasTotal state && State.hasAverage state = false.
Proof.
  unfold Reviews_rating.
  destruct (State.hasTotal state), (State.hasAverage state); cbn [negb orb andb];
    try (destruct (State.total state =? 0));
    split; intros H; try reflexivity; discriminate.
Qed.

(** [k] times SET_NEXT_PAGE. *)
Lemma next_pages k : forall state,
  dispatchAll state (repeat SET_NEXT_PAGE k)
  = Some (with_offset state (State.offset state + Z.of_nat k * State.limit state)).
Proof.
  induction k as [|k IH]; intros state.
  - cbn [repeat dispatchAll Z.of_nat Z.mul].
    rewrite Z.add_0_r, with_offset_same. reflexivity.
  - cbn [repeat dispatchAll]. rewrite reducer_SET_NEXT_PAGE, IH.
    rewrite with_offset_twice. cbn [State.offset State.limit with_offset].
    do 2 f_equal. lia.
Qed.

(** [k] times SET_PREV_PAGE. *)
Lemma prev_pages k : forall state,
  0 <= State.offset state -> 0 <= State.limit state ->
  dispatchAll state (repeat SET_PREV_PAGE k)
  = Some (with_offset state
            (Z.max 0 (State.offset state - Z.of_nat k * State.limit state))).
Proof.
  induction k as [|k IH]; intros state Ho Hl.
  - cbn [repeat dispatchAll Z.of_nat Z.mul].
    rewrite Z.sub_0_r, Z.max_r by lia. rewrite with_offset_same. reflexivity.
  - cbn [repeat dispatchAll]. rewrite reducer_SET_PREV_PAGE.
    rewrite IH by (cbn [State.offset State.limit with_offset]; lia).
    rewrite with_offset_twice. cbn [State.offset State.limit with_offset].
    do 2 f_equal.
    assert (0 <= Z.of_nat k * State.limit state) by (apply Z.mul_nonneg_nonneg; lia).
    lia.
Qed.

(** Splitting on which of the seven types an action has. *)
Lemma recognized_cases ty :
  recognized ty = true ->
  ty = "SET_NEXT_PAGE" \/ ty = "SET_PREV_PAGE" \/ ty = "TOGGLE_REVIEW_FORM"
  \/ ty = "SET_SELECTED_SORT" \/ ty = "SET_REVIEWS" \/ ty = "SET_TOTAL"
  \/ ty = "SET_AVERAGE".
Proof.
  unfold recognized, actionTypes, existsb.
  repeat match goal with
         | |- context [String.eqb ty ?s] =>
             destruct (String.eqb_spec ty s) as [->|_]; [intros _; tauto|]
         end.
  cbn. discriminate.
Qed.

End ReducerMore.

(** X6.  A click on the collapsible header flips whether the form is open
    and changes nothing else, two clicks give the state back, and no action
    of another type opens or closes the form. *)
Theorem collapsible_toggle :
  forall state : State.t,
    reducer state (onClick (Reviews_collapsible state))
    = Some (with_showForm state (negb (isOpen (Reviews_collapsible state))))
    /\ dispatchAll state [onClick (Reviews_collapsible state);
                          onClick (Reviews_collapsible state)]
       = Some state
    /\ (forall (action : Action) (state' : State.t),
           type action <> "TOGGLE_REVIEW_FORM" ->
           reducer state action = Some state' ->
           isOpen (Reviews_collapsible state')
           = isOpen (Reviews_collapsible state)).
Proof.
  intros state. split; [reflexivity|]. split.
  - destruct state as [so off lim rs tot avg ht ha sf].
    destruct sf; reflexivity.
  - intros action state' Hty Hstep. cbn [Reviews_collapsible isOpen].
    apply (reducer_keeps_showForm state action state' Hstep Hty).
Qed.

Lemma collapsible_toggle_witness :
  isOpen (Reviews_collapsible (with_offset initialState 10))
  = isOpen (Reviews_collapsible initialState).
Proof.
  apply (proj2 (proj2 (collapsible_toggle initialState))
           SET_NEXT_PAGE (with_offset initialState 10)).
  - discriminate.
  - reflexivity.
Defined.

(** X7.  Two actions of different types, other than the pair next page and
    previous page, can be dispatched in either order: the resulting state is
    the same.  So the three responses may arrive in any order, and before or
    after any paging, sorting or toggling. *)
Theorem actions_commute :
  forall (state : State.t) (a b : Action),
    recognized (type a) = true ->
    recognized (type b) = true ->
    type a <> type b ->
    isPaging (type a) && isPaging (type b) = false ->
    dispatchAll state [a; b] = dispatchAll state [b; a].
Proof.
  intros state [ta aa] [tb ab] Ha Hb Hne Hpaging. cbn [type] in *.
  apply recognized_cases in Ha. apply recognized_cases in Hb.
  destruct Ha as [->|[->|[->|[->|[->|[->| ->]]]]]];
    destruct Hb as [->|[->|[->|[->|[->|[->| ->]]]]]];
    try (exfalso; apply Hne; reflexivity);
    try (vm_compute in Hpaging; discriminate Hpaging);
    reflexivity.
Qed.

Lemma actions_commute_witness :
  dispatchAll initialState [onReviewsResponse (Some [sampleReview]); SET_NEXT_PAGE]
  = dispatchAll initialState [SET_NEXT_PAGE; onReviewsResponse (Some [sampleReview])].
Proof.
  apply (actions_commute initialState
           (onReviewsResponse (Some [sampleReview])) SET_NEXT_PAGE).
  - reflexivity.
  - reflexivity.
  - discriminate.
  - reflexivity.
Defined.

(** Next page and previous page do not commute: from the first page, next
    then previous stays on it, previous then next leaves it. *)
Example paging_does_not_commute :
  dispatchAll initialState [SET_NEXT_PAGE; SET_PREV_PAGE] = Some initialState
  /\ dispatchAll initialState [SET_PREV_PAGE; SET_NEXT_PAGE]
     = Some (with_offset initialState 10).
Proof. split; reflexivity. Qed.

(** X8.  Of two actions of the same type that store a payload (the sort
    key, the reviews, the total, the average) the later one wins: the state
    is the one the later action alone would give. *)
Theorem last_payload_wins :
  forall (state : State.t) (a b : Action),
    type a = type b ->
    In (type b) ["SET_SELECTED_SORT"; "SET_REVIEWS"; "SET_TOTAL"; "SET_AVERAGE"] ->
    dispatchAll state [a; b] = reducer state b.
Proof.
  intros state [ta aa] [tb ab] Heq Hin. cbn [type] in *. subst ta.
  cbn [In] in Hin.
  destruct Hin as [<-|[<-|[<-|[<-|[]]]]]; reflexivity.
Qed.

Lemma last_payload_wins_witness :
  dispatchAll fullPageState [onReviewsResponse (Some [sampleReview]);
                             onReviewsResponse None]
  = reducer fullPageState (onReviewsResponse None).
Proof.
  apply (last_payload_wins fullPageState
           (onReviewsResponse (Some [sampleReview])) (onReviewsResponse None)).
  - reflexivity.
  - cbn. auto.
Defined.

(** X9.  From an offset and a page size that are not negative, with the
    offset [k] pages on still a safe integer (at most 2^53, so that no sum
    is rounded), [k] pages forward and then [k] pages back give the state
    back; the doubles the source computes come back to the offset too. *)
Theorem forward_then_back :
  forall (state : State.t) (k : nat),
    0 <= State.offset state ->
    0 <= State.limit state ->
    Double.safe (State.offset state + Z.of_nat k * State.limit state) ->
    dispatchAll state (repeat SET_NEXT_PAGE k ++ repeat SET_PREV_PAGE k)
    = Some state
    /\ prevOffsets k (nextOffsets k (State.offset state) (State.limit state))
                   (State.limit state)
       = State.offset state.
Proof.
  intros state k Ho Hl Hs.
  assert (Hk : 0 <= Z.of_nat k * State.limit state)
    by (apply Z.mul_nonneg_nonneg; lia).
  split.
  - rewrite dispatchAll_app, next_pages.
    rewrite prev_pages by (cbn [State.offset State.limit with_offset]; lia).
    rewrite with_offset_twice. cbn [State.offset State.limit with_offset].
    f_equal.
    transitivity (with_offset state (State.offset state));
      [f_equal; lia|apply with_offset_same].
  - destruct k as [|k]; [reflexivity|].
    rewrite nextOffsets_exact by assumption.
    assert (State.limit state <= Z.of_nat (S k) * State.limit state) by nia.
    rewrite prevOffsets_exact by (unfold Double.safe in *; lia).
    lia.
Qed.

Lemma forward_then_back_witness :
  dispatchAll fullPageState (repeat SET_NEXT_PAGE 3 ++ repeat SET_PREV_PAGE 3)
  = Some fullPageState
  /\ prevOffsets 3 (nextOffsets 3 (State.offset fullPageState)
                                (State.limit fullPageState))
                 (State.limit fullPageState)
     = State.offset fullPageState.
Proof.
  apply (forward_then_back fullPageState 3); vm_compute; discriminate.
Defined.

(** X10.  From an offset and a page size that are not negative, with the
    offset [k] pages on still a safe integer (at most 2^53, so that no sum
    is rounded), [k] times next page adds [k] page sizes to the offset, and
    [k] times previous page takes them off, stopping at 0; nothing else
    changes, and the doubles the source computes are these offsets. *)
Theorem paging_k_times :
  forall (state : State.t) (k : nat),
    0 <= State.offset state ->
    0 <= State.limit state ->
    Double.safe (State.offset state + Z.of_nat k * State.limit state) ->
    (dispatchAll state (repeat SET_NEXT_PAGE k)
     = Some (with_offset state
               (State.offset state + Z.of_nat k * State.limit state))
     /\ nextOffsets k (State.offset state) (State.limit state)
        = State.offset state + Z.of_nat k * State.limit state)
    /\ (dispatchAll state (repeat SET_PREV_PAGE k)
        = Some (with_offset state
                  (Z.max 0 (State.offset state
                            - Z.of_nat k * State.limit state)))
        /\ prevOffsets k (State.offset state) (State.limit state)
           = Z.max 0 (State.offset state - Z.of_nat k * State.limit state)).
Proof.
  intros state k Ho Hl Hs.
  assert (Hk : 0 <= Z.of_nat k * State.limit state)
    by (apply Z.mul_nonneg_nonneg; lia).
  split; split.
  - apply next_pages.
  - apply nextOffsets_exact; assumption.
  - apply prev_pages; assumption.
  - destruct k as [|k].
    + cbn [prevOffsets Z.of_nat Z.mul]. lia.
    + assert (State.limit state <= Z.of_nat (S k) * State.limit state) by nia.
      apply prevOffsets_exact; unfold Double.safe in *; lia.
Qed.

Lemma paging_k_times_witness :
  (dispatchAll (with_offset initialState 20) (repeat SET_NEXT_PAGE 3)
   = Some (with_offset initialState 50)
   /\ nextOffsets 3 20 10 = 50)
  /\ (dispatchAll (with_offset initialState 20) (repeat SET_PREV_PAGE 3)
      = Some (with_offset initialState 0)
      /\ prevOffsets 3 20 10 = 0).
Proof.
  apply (paging_k_times (with_offset initialState 20) 3);
    vm_compute; discriminate.
Defined.



(** X12.  A region that has left its loading text never shows it again,
    whatever actions follow: no action unsets hasTotal or hasAverage, and
    none stores [null] for the reviews. *)
Theorem loading_never_returns :
  forall (state state' : State.t) (actions : list Action),
    dispatchAll state actions = Some state' ->
    (Reviews_rating state <> Fragment [Text "Loading summary..."] ->
     Reviews_rating state' <> Fragment [Text "Loading summary..."])
    /\ (forall Date_parse Date_now,
           Reviews_comments Date_parse Date_now state
           <> Fragment [Text "Loading reviews..."] ->
           Reviews_comments Date_parse Date_now state'
           <> Fragment [Text "Loading reviews..."]).
Proof.
  intros state state' actions Hrun. split.
  - intros Hshown Hback.
    apply rating_loading_iff in Hback. apply Hshown, rating_loading_iff.
    destruct (State.hasTotal state) eqn:Ht, (State.hasAverage state) eqn:Ha;
      try reflexivity.
    rewrite (dispatchAll_preserves (fun s => State.hasTotal s = true)
               reducer_keeps_hasTotal actions state state' Hrun Ht) in Hback.
    rewrite (dispatchAll_preserves (fun s => State.hasAverage s = true)
               reducer_keeps_hasAverage actions state state' Hrun Ha) in Hback.
    discriminate.
  - intros Date_parse Date_now Hshown Hback.
    apply comments_loading_iff in Hback.
    apply Hshown, comments_loading_iff.
    destruct (State.reviews state) as [rs|] eqn:Hrs; [|reflexivity].
    exfalso.
    apply (dispatchAll_preserves (fun s => State.reviews s <> None)
             reducer_keeps_reviews_loaded actions state state' Hrun);
      [congruence|exact Hback].
Qed.

Lemma loading_never_returns_witness :
  (Reviews_rating fullPageState <> Fragment [Text "Loading summary..."] ->
   Reviews_rating (with_offset fullPageState 10)
   <> Fragment [Text "Loading summary..."])
  /\ (forall Date_parse Date_now,
         Reviews_comments Date_parse Date_now fullPageState
         <> Fragment [Text "Loading reviews..."] ->
         Reviews_comments Date_parse Date_now (with_offset fullPageState 10)
         <> Fragment [Text "Loading reviews..."]).
Proof.
  apply (loading_never_returns fullPageState (with_offset fullPageState 10)
           [SET_NEXT_PAGE]).
  reflexivity.
Defined.

(** * The effects *)

(** X13.  Each effect sends nothing exactly when there is no product id or
    the product id is the empty string; otherwise the first sends its two
    queries and the second its one. *)
Theorem effects_without_product :
  forall (productId : option string) (state : State.t),
    (summaryEffect productId = []
     <-> productId = None \/ productId = Some "")
    /\ (listEffect productId state = []
        <-> productId = None \/ productId = Some "")
    /\ (length (summaryEffect productId) = 0%nat
        \/ length (summaryEffect productId) = 2%nat)
    /\ (length (listEffect productId state) = 0%nat
        \/ length (listEffect productId state) = 1%nat).
Proof.
  intros [p|] state; unfold summaryEffect, listEffect.
  - destruct (String.eqb_spec p "") as [->|Hne]; cbn [length];
      intuition (try discriminate; try congruence).
  - cbn [length]. intuition.
Qed.

(** X14.  The page of reviews is not asked for again because a response has
    arrived or the form was toggled: SET_REVIEWS, SET_TOTAL, SET_AVERAGE and
    TOGGLE_REVIEW_FORM leave the dependencies of the list effect, and so
    its query, as they are. *)
Theorem responses_do_not_refetch :
  forall (productId : option string) (state state' : State.t)
         (action : Action),
    In (type action)
       ["SET_REVIEWS"; "SET_TOTAL"; "SET_AVERAGE"; "TOGGLE_REVIEW_FORM"] ->
    reducer state action = Some state' ->
    listDeps productId state' = listDeps productId state
    /\ listEffect productId state' = listEffect productId state.
Proof.
  intros productId state state' [ty ar] Hin Hstep. cbn [type In] in Hin.
  assert (Hsame : State.sort state' = State.sort state
                  /\ State.offset state' = State.offset state
                  /\ State.limit state' = State.limit state).
  { destruct Hin as [<-|[<-|[<-|[<-|[]]]]]; inversion Hstep; repeat split. }
  destruct Hsame as (Hs & Ho & Hl).
  unfold listDeps, listEffect. rewrite Hs, Ho, Hl. split; reflexivity.
Qed.

Lemma responses_do_not_refetch_witness :
  listDeps (Some "P1") (with_reviews initialState (Some [sampleReview]))
  = listDeps (Some "P1") initialState
  /\ listEffect (Some "P1") (with_reviews initialState (Some [sampleReview]))
     = listEffect (Some "P1") initialState.
Proof.
  apply (responses_do_not_refetch (Some "P1") initialState
           (with_reviews initialState (Some [sampleReview]))
           (onReviewsResponse (Some [sampleReview]))).
  - cbn. auto.
  - reflexivity.
Defined.

(** X15.  With an offset that is not negative, a page size above 0 and
    their sum a safe integer (at most 2^53, so that it is not rounded), the
    list effect runs again after SET_NEXT_PAGE always, after SET_PREV_PAGE
    unless the offset is 0, and after SET_SELECTED_SORT unless the key is
    the one already selected; the doubles the source computes move the
    offset in the same cases. *)
Theorem navigation_refetches :
  forall (productId : option string) (state : State.t),
    0 <= State.offset state ->
    0 < State.limit state ->
    Double.safe (State.offset state + State.limit state) ->
    (forall state', reducer state SET_NEXT_PAGE = Some state' ->
                    listDeps productId state' <> listDeps productId state)
    /\ (forall state', reducer state SET_PREV_PAGE = Some state' ->
                       (listDeps productId state' = listDeps productId state
                        <-> State.offset state = 0))
    /\ (forall k state', reducer state (SET_SELECTED_SORT k) = Some state' ->
                         (listDeps productId state' = listDeps productId state
                          <-> k = State.sort state))
    /\ nextOffset (State.offset state) (State.limit state)
       <> State.offset state
    /\ (prevOffset (State.offset state) (State.limit state)
        = State.offset state
        <-> State.offset state = 0).
Proof.
  intros productId state Ho Hl Hs. unfold listDeps.
  split; [|split; [|split; [|split]]].
  - intros state' Hstep Heq. rewrite reducer_SET_NEXT_PAGE in Hstep.
    inversion Hstep. subst state'. cbn [State.offset with_offset] in Heq.
    inversion Heq. lia.
  - intros state' Hstep. rewrite reducer_SET_PREV_PAGE in Hstep.
    inversion Hstep. subst state'.
    cbn [State.offset State.limit State.sort with_offset]. split.
    + intros Heq. inversion Heq. lia.
    + intros Hzero. rewrite Hzero. rewrite Z.max_l by lia. reflexivity.
  - intros k state' Hstep. rewrite reducer_SET_SELECTED_SORT in Hstep.
    inversion Hstep. subst state'.
    cbn [State.offset State.limit State.sort with_sort]. split.
    + intros Heq. inversion Heq. reflexivity.
    + intros ->. reflexivity.
  - rewrite (nextOffset_exact _ _ Hs). lia.
  - rewrite prevOffset_exact by (unfold Double.safe in *; lia). lia.
Qed.

Lemma navigation_refetches_witness :
  listDeps (Some "P1") (with_offset initialState 10)
  <> listDeps (Some "P1") initialState.
Proof.
  apply (proj1 (navigation_refetches (Some "P1") initialState
                  ltac:(cbn; lia) ltac:(cbn; lia)
                  ltac:(vm_compute; discriminate))
           (with_offset initialState 10)).
  reflexivity.
Defined.

(** * The controls and the entries of the list *)
Section RenderMore.

Variable Date_parse : string -> option Z.
Variable Date_now : Z.

(** What one entry of the list holds. *)
Lemma dropdowns_comment review :
  dropdowns (Reviews_comment Date_parse Date_now review) = [].
Proof.
  unfold Reviews_comment. destruct (verifiedPurchaser review); reflexivity.
Qed.

Lemma starRatings_comment review :
  starRatings (Reviews_comment Date_parse Date_now review) = [rating review].
Proof.
  unfold Reviews_comment. destruct (verifiedPurchaser review); reflexivity.
Qed.

Lemma icons_comment review :
  icons (Reviews_comment Date_parse Date_now review)
  = if verifiedPurchaser review then 1%nat else 0%nat.
Proof.
  unfold Reviews_comment. destruct (verifiedPurchaser review); reflexivity.
Qed.

Lemma texts_comment review :
  In (title review) (texts (Reviews_comment Date_parse Date_now review))
  /\ In (getTimeAgo Date_parse Date_now (reviewDateTime review))
        (texts (Reviews_comment Date_parse Date_now review))
  /\ In (reviewerName review)
        (texts (Reviews_comment Date_parse Date_now review))
  /\ In (text review) (texts (Reviews_comment Date_parse Date_now review)).
Proof.
  unfold Reviews_comment.
  destruct (verifiedPurchaser review); cbn [texts flat_map app In]; tauto.
Qed.

Lemma dropdowns_comments_map reviews :
  flat_map dropdowns (map (Reviews_comment Date_parse Date_now) reviews) = [].
Proof.
  induction reviews as [|r rs IH]; cbn [map flat_map].
  - reflexivity.
  - rewrite dropdowns_comment, IH. reflexivity.
Qed.

Lemma starRatings_comments_map reviews :
  flat_map starRatings (map (Reviews_comment Date_parse Date_now) reviews)
  = map rating reviews.
Proof.
  induction reviews as [|r rs IH]; cbn [map flat_map].
  - reflexivity.
  - rewrite starRatings_comment, IH. reflexivity.
Qed.

Lemma icons_comments_map reviews :
  list_sum (map icons (map (Reviews_comment Date_parse Date_now) reviews))
  = length (filter verifiedPurchaser reviews).
Proof.
  induction reviews as [|r rs IH]; cbn [map list_sum fold_right filter].
  - reflexivity.
  - change (fold_right Nat.add 0%nat
              (map icons (map (Reviews_comment Date_parse Date_now) rs)))
      with (list_sum (map icons (map (Reviews_comment Date_parse Date_now) rs))).
    rewrite icons_comment, IH.
    destruct (verifiedPurchaser r); reflexivity.
Qed.

(** The region of a page that is loaded and not empty, child by child. *)
Lemma comments_loaded state reviews :
  State.reviews state = Some reviews -> reviews <> [] ->
  Reviews_comments Date_parse Date_now state
  = Fragment
      [ Tag "div" "flex mb7"
            [ Tag "div" "mr4"
                  [ Dropdown options (fun v => SET_SELECTED_SORT v)
                             (State.sort state) ] ];
        Fragment (map (Reviews_comment Date_parse Date_now) reviews);
        Tag "div" "review__paging"
            [ Pagination
                {| textShowRows := "";
                   currentItemFrom := State.offset state + 1;
                   currentItemTo := State.offset state + State.limit state;
                   textOf := "of";
                   totalItems := State.total state;
                   onNextClick := SET_NEXT_PAGE;
                   onPrevClick := SET_PREV_PAGE |} ] ].
Proof.
  intros Hrs Hne. unfold Reviews_comments. rewrite Hrs.
  destruct reviews as [|r rs]; [contradiction|]. reflexivity.
Qed.

Lemma dropdowns_loaded state reviews :
  State.reviews state = Some reviews -> reviews <> [] ->
  dropdowns (Reviews_comments Date_parse Date_now state)
  = [ {| dropdownOptions := options;
         dropdownOnChange := fun v => SET_SELECTED_SORT v;
         dropdownValue := State.sort state |} ].
Proof.
  intros Hrs Hne. rewrite (comments_loaded state reviews Hrs Hne).
  cbn [dropdowns flat_map app]. rewrite dropdowns_comments_map. reflexivity.
Qed.

Lemma dropdowns_absent state :
  State.reviews state = None \/ State.reviews state = Some [] ->
  dropdowns (Reviews_comments Date_parse Date_now state) = [].
Proof.
  intros [H|H]; unfold Reviews_comments; rewrite H; reflexivity.
Qed.

End RenderMore.

(** X16.  For a product and a page that is loaded and not empty, with
    offset, offset + 1 and offset + limit safe integers (at most 2^53 in
    magnitude, so that the pager's range is not rounded), the query of the
    list effect asks for what the controls show: its offset is one less than
    the first item of the pager, its limit is the length of the pager's
    range, its order is the value of the dropdown, and it is sent with the
    no-cache policy. *)
Theorem query_matches_controls :
  forall (Date_parse : string -> option Z) (Date_now : Z) (id : string)
         (state : State.t) (reviews : list Review),
    id <> "" ->
    State.reviews state = Some reviews ->
    reviews <> [] ->
    Double.safe (State.offset state) ->
    Double.safe (State.offset state + 1) ->
    Double.safe (State.offset state + State.limit state) ->
    exists (q : QueryOptions) (pg : PaginationProps) (d : DropdownProps),
      listEffect (Some id) state = [q]
      /\ pagers (Reviews_comments Date_parse Date_now state) = [pg]
      /\ pagerInDoubles state pg
      /\ dropdowns (Reviews_comments Date_parse Date_now state) = [d]
      /\ query q = ReviewsByProductId
      /\ Variables.productId (variables q) = id
      /\ Variables.offset (variables q) = Some (currentItemFrom pg - 1)
      /\ Variables.limit (variables q)
         = Some (currentItemTo pg - currentItemFrom pg + 1)
      /\ Variables.orderBy (variables q) = Some (dropdownValue d)
      /\ fetchPolicy q = Some "no-cache".
Proof.
  intros Date_parse Date_now id state reviews Hid Hrs Hne Hso Hs1 Hsl.
  do 3 eexists.
  split.
  { unfold listEffect. destruct (String.eqb_spec id "") as [?|_];
      [contradiction|reflexivity]. }
  split; [apply (pagers_loaded Date_parse Date_now state reviews Hrs Hne)|].
  split.
  { unfold pagerInDoubles, Double.add. cbn [currentItemFrom currentItemTo].
    rewrite !fl_safe by assumption. split; reflexivity. }
  split; [apply (dropdowns_loaded Date_parse Date_now state reviews Hrs Hne)|].
  cbn [query variables fetchPolicy Variables.productId Variables.offset
       Variables.limit Variables.orderBy currentItemFrom currentItemTo
       dropdownValue].
  repeat split; f_equal; lia.
Qed.

Lemma query_matches_controls_witness :
  exists (q : QueryOptions) (pg : PaginationProps) (d : DropdownProps),
    listEffect (Some "P1") fullPageState = [q]
    /\ pagers (Reviews_comments (fun _ => None) 0 fullPageState) = [pg]
    /\ pagerInDoubles fullPageState pg
    /\ dropdowns (Reviews_comments (fun _ => None) 0 fullPageState) = [d]
    /\ query q = ReviewsByProductId
    /\ Variables.productId (variables q) = "P1"
    /\ Variables.offset (variables q) = Some (currentItemFrom pg - 1)
    /\ Variables.limit (variables q)
       = Some (currentItemTo pg - currentItemFrom pg + 1)
    /\ Variables.orderBy (variables q) = Some (dropdownValue d)
    /\ fetchPolicy q = Some "no-cache".
Proof.
  apply (query_matches_controls (fun _ => None) 0 "P1" fullPageState
           (repeat sampleReview 10)).
  - discriminate.
  - reflexivity.
  - discriminate.
  - vm_compute. discriminate.
  - vm_compute. discriminate.
  - vm_compute. discriminate.
Defined.

(** X17.  On a page that is loaded and not empty, with an offset and a
    page size that are not negative and offset + 2 * limit + 1 a safe
    integer (at most 2^53, so that no offset and no range is rounded), a
    click on next leaves the old reviews and the pager in place and moves
    the range on by its length: the new range starts right after the old
    one ends.  A click on previous moves the range back by its length when
    the offset is at least the page size, and to the first item
    otherwise. *)
Theorem pager_clicks :
  forall (Date_parse : string -> option Z) (Date_now : Z)
         (state : State.t) (reviews : list Review),
    State.reviews state = Some reviews ->
    reviews <> [] ->
    0 <= State.offset state ->
    0 <= State.limit state ->
    Double.safe (State.offset state + 2 * State.limit state + 1) ->
    exists (pg : PaginationProps),
      pagers (Reviews_comments Date_parse Date_now state) = [pg]
      /\ pagerInDoubles state pg
      /\ (exists (next : State.t) (pg' : PaginationProps),
             reducer state (onNextClick pg) = Some next
             /\ State.offset next
                = nextOffset (State.offset state) (State.limit state)
             /\ State.reviews next = Some reviews
             /\ pagers (Reviews_comments Date_parse Date_now next) = [pg']
             /\ pagerInDoubles next pg'
             /\ currentItemFrom pg' = currentItemTo pg + 1
             /\ currentItemTo pg' - currentItemFrom pg'
                = currentItemTo pg - currentItemFrom pg)
      /\ (exists (prev : State.t) (pg' : PaginationProps),
             reducer state (onPrevClick pg) = Some prev
             /\ State.offset prev
                = prevOffset (State.offset state) (State.limit state)
             /\ State.reviews prev = Some reviews
             /\ pagers (Reviews_comments Date_parse Date_now prev) = [pg']
             /\ pagerInDoubles prev pg'
             /\ (State.limit state <= State.offset state ->
                 currentItemTo pg' = currentItemFrom pg - 1)
             /\ (State.offset state < State.limit state ->
                 currentItemFrom pg' = 1)).
Proof.
  intros Date_parse Date_now state reviews Hrs Hne Ho Hl Hs.
  unfold Double.safe in Hs.
  assert (Hsafe : forall z, 0 <= z <= State.offset state + 2 * State.limit state + 1
                            -> Double.fl z = z).
  { intros z Hz. apply fl_safe. unfold Double.safe. lia. }
  eexists. split;
    [apply (pagers_loaded Date_parse Date_now state reviews Hrs Hne)|].
  cbn [onNextClick onPrevClick currentItemFrom currentItemTo].
  split; [|split].
  - unfold pagerInDoubles, Double.add. cbn [currentItemFrom currentItemTo].
    rewrite !Hsafe by lia. split; reflexivity.
  - do 2 eexists. split; [apply reducer_SET_NEXT_PAGE|].
    cbn [State.offset State.limit with_offset].
    split; [unfold nextOffset, Double.add; rewrite Hsafe by lia; reflexivity|].
    split; [exact Hrs|].
    split; [apply (pagers_loaded Date_parse Date_now
                     (with_offset state (State.offset state + State.limit state))
                     reviews Hrs Hne)|].
    unfold pagerInDoubles, Double.add.
    cbn [currentItemFrom currentItemTo State.offset State.limit with_offset].
    rewrite !Hsafe by lia. repeat split; lia.
  - do 2 eexists. split; [apply reducer_SET_PREV_PAGE|].
    cbn [State.offset State.limit with_offset].
    split; [rewrite prevOffset_exact by (unfold Double.safe; lia); reflexivity|].
    split; [exact Hrs|].
    split; [apply (pagers_loaded Date_parse Date_now
                     (with_offset state
                        (Z.max 0 (State.offset state - State.limit state)))
                     reviews Hrs Hne)|].
    unfold pagerInDoubles, Double.add.
    cbn [currentItemFrom currentItemTo State.offset State.limit with_offset].
    rewrite !Hsafe by lia. repeat split; lia.
Qed.

Lemma pager_clicks_witness :
  exists (pg : PaginationProps),
    pagers (Reviews_comments (fun _ => None) 0 shortPageState) = [pg]
    /\ pagerInDoubles shortPageState pg
    /\ (exists (next : State.t) (pg' : PaginationProps),
           reducer shortPageState (onNextClick pg) = Some next
           /\ State.offset next
              = nextOffset (State.offset shortPageState)
                           (State.limit shortPageState)
           /\ State.reviews next = Some (repeat sampleReview 3)
           /\ pagers (Reviews_comments (fun _ => None) 0 next) = [pg']
           /\ pagerInDoubles next pg'
           /\ currentItemFrom pg' = currentItemTo pg + 1
           /\ currentItemTo pg' - currentItemFrom pg'
              = currentItemTo pg - currentItemFrom pg)
    /\ (exists (prev : State.t) (pg' : PaginationProps),
           reducer shortPageState (onPrevClick pg) = Some prev
           /\ State.offset prev
              = prevOffset (State.offset shortPageState)
                           (State.limit shortPageState)
           /\ State.reviews prev = Some (repeat sampleReview 3)
           /\ pagers (Reviews_comments (fun _ => None) 0 prev) = [pg']
           /\ pagerInDoubles prev pg'
           /\ (State.limit shortPageState <= State.offset shortPageState ->
               currentItemTo pg' = currentItemFrom pg - 1)
           /\ (State.offset shortPageState < State.limit shortPageState ->
               currentItemFrom pg' = 1)).
Proof.
  apply (pager_clicks (fun _ => None) 0 shortPageState (repeat sampleReview 3)).
  - reflexivity.
  - discriminate.
  - vm_compute. discriminate.
  - vm_compute. discriminate.
  - vm_compute. discriminate.
Defined.

(** X18.  On a page that is loaded and not empty there is one dropdown; it
    offers the four options and shows the sort key of the state.  Choosing a
    value makes it the value shown, and leaves the reviews and the pager as
    they were: the page is not reset. *)
Theorem dropdown_choice :
  forall (Date_parse : string -> option Z) (Date_now : Z)
         (state : State.t) (reviews : list Review),
    State.reviews state = Some reviews ->
    reviews <> [] ->
    exists d : DropdownProps,
      dropdowns (Reviews_comments Date_parse Date_now state) = [d]
      /\ dropdownOptions d = options
      /\ dropdownValue d = State.sort state
      /\ forall v : string,
          exists (state' : State.t) (d' : DropdownProps),
            reducer state (dropdownOnChange d v) = Some state'
            /\ dropdowns (Reviews_comments Date_parse Date_now state') = [d']
            /\ dropdownValue d' = v
            /\ State.reviews state' = Some reviews
            /\ pagers (Reviews_comments Date_parse Date_now state')
               = pagers (Reviews_comments Date_parse Date_now state).
Proof.
  intros Date_parse Date_now state reviews Hrs Hne.
  eexists. split;
    [apply (dropdowns_loaded Date_parse Date_now state reviews Hrs Hne)|].
  cbn [dropdownOptions dropdownValue dropdownOnChange].
  split; [reflexivity|]. split; [reflexivity|].
  intros v. do 2 eexists.
  split; [apply reducer_SET_SELECTED_SORT|].
  split; [apply (dropdowns_loaded Date_parse Date_now (with_sort state v)
                   reviews Hrs Hne)|].
  split; [reflexivity|]. split; [exact Hrs|].
  rewrite (pagers_loaded Date_parse Date_now state reviews Hrs Hne).
  apply (pagers_loaded Date_parse Date_now (with_sort state v) reviews Hrs Hne).
Qed.

Lemma dropdown_choice_witness :
  exists d : DropdownProps,
    dropdowns (Reviews_comments (fun _ => None) 0 fullPageState) = [d]
    /\ dropdownOptions d = options
    /\ dropdownValue d = State.sort fullPageState
    /\ forall v : string,
        exists (state' : State.t) (d' : DropdownProps),
          reducer fullPageState (dropdownOnChange d v) = Some state'
          /\ dropdowns (Reviews_comments (fun _ => None) 0 state') = [d']
          /\ dropdownValue d' = v
          /\ State.reviews state' = Some (repeat sampleReview 10)
          /\ pagers (Reviews_comments (fun _ => None) 0 state')
             = pagers (Reviews_comments (fun _ => None) 0 fullPageState).
Proof.
  apply (dropdown_choice (fun _ => None) 0 fullPageState
           (repeat sampleReview 10)).
  - reflexivity.
  - discriminate.
Defined.

(** X19.  The list region holds no control, neither dropdown nor pager,
    exactly while the reviews are loading or the loaded page is empty,
    whatever the offset: an empty page past the first one offers no way
    back. *)
Theorem controls_absent_iff :
  forall (Date_parse : string -> option Z) (Date_now : Z) (state : State.t),
    (dropdowns (Reviews_comments Date_parse Date_now state) = []
     /\ pagers (Reviews_comments Date_parse Date_now state) = [])
    <-> (State.reviews state = None \/ State.reviews state = Some []).
Proof.
  intros Date_parse Date_now state. split.
  - intros [_ Hp].
    destruct (State.reviews state) as [[|r rs]|] eqn:Hrs; auto.
    rewrite (pagers_loaded Date_parse Date_now state (r :: rs) Hrs) in Hp;
      discriminate.
  - intros H. split; [apply dropdowns_absent|apply pagers_absent]; exact H.
Qed.

(** A text of a child is a text of the fragment. *)
Lemma texts_in_Fragment (s : string) (child : Element) (children : list Element) :
  In child children -> In s (texts child) -> In s (texts (Fragment children)).
Proof.
  intros Hin Hs. cbn [texts]. apply in_flat_map. exists child. split; assumption.
Qed.

(** X20.  A loaded page is rendered one entry per review, in the order of
    the reviews: the stars shown are the ratings of the reviews in order,
    there are as many verified-purchaser icons as verified reviews, and
    each review's title, time-ago label, reviewer name and text are among
    the texts. *)
Theorem entries_follow_reviews :
  forall (Date_parse : string -> option Z) (Date_now : Z)
         (state : State.t) (reviews : list Review),
    State.reviews state = Some reviews ->
    starRatings (Reviews_comments Date_parse Date_now state)
    = map rating reviews
    /\ icons (Reviews_comments Date_parse Date_now state)
       = length (filter verifiedPurchaser reviews)
    /\ forall review : Review,
        In review reviews ->
        In (title review) (texts (Reviews_comments Date_parse Date_now state))
        /\ In (getTimeAgo Date_parse Date_now (reviewDateTime review))
              (texts (Reviews_comments Date_parse Date_now state))
        /\ In (reviewerName review)
              (texts (Reviews_comments Date_parse Date_now state))
        /\ In (text review)
              (texts (Reviews_comments Date_parse Date_now state)).
Proof.
  intros Date_parse Date_now state reviews Hrs.
  destruct reviews as [|r rs].
  - unfold Reviews_comments. rewrite Hrs. cbn. repeat split; contradiction.
  - rewrite (comments_loaded Date_parse Date_now state (r :: rs) Hrs)
      by discriminate.
    split; [|split].
    + cbn [starRatings flat_map app].
      rewrite starRatings_comments_map, app_nil_r. reflexivity.
    + cbn [icons map list_sum fold_right].
      change (fold_right Nat.add 0%nat
                (map icons (map (Reviews_comment Date_parse Date_now) rs)))
        with (list_sum
                (map icons (map (Reviews_comment Date_parse Date_now) rs))).
      rewrite icons_comments_map, icons_comment. cbn [filter].
      destruct (verifiedPurchaser r); cbn [length]; lia.
    + intros review Hin.
      assert (Hsub : forall s,
                 In s (texts (Reviews_comment Date_parse Date_now review)) ->
                 In s (texts
                         (Fragment
                            [ Tag "div" "flex mb7"
                                  [ Tag "div" "mr4"
                                        [ Dropdown options
                                            (fun v => SET_SELECTED_SORT v)
                                            (State.sort state) ] ];
                              Fragment
                                (map (Reviews_comment Date_parse Date_now)
                                     (r :: rs));
                              Tag "div" "review__paging"
                                  [ Pagination
                                      {| textShowRows := "";
                                         currentItemFrom := State.offset state + 1;
                                         currentItemTo :=
                                           State.offset state + State.limit state;
                                         textOf := "of";
                                         totalItems := State.total state;
                                         onNextClick := SET_NEXT_PAGE;
                                         onPrevClick := SET_PREV_PAGE |} ] ]))).
      { intros s Hs.
        eapply texts_in_Fragment; [right; left; reflexivity|].
        eapply texts_in_Fragment; [apply in_map; exact Hin|exact Hs]. }
      destruct (texts_comment Date_parse Date_now review) as (H1 & H2 & H3 & H4).
      repeat split; apply Hsub; assumption.
Qed.

Lemma entries_follow_reviews_witness :
  starRatings (Reviews_comments (fun _ => None) 0 shortPageState)
  = map rating (repeat sampleReview 3)
  /\ icons (Reviews_comments (fun _ => None) 0 shortPageState)
     = length (filter verifiedPurchaser (repeat sampleReview 3))
  /\ forall review : Review,
      In review (repeat sampleReview 3) ->
      In (title review) (texts (Reviews_comments (fun _ => None) 0 shortPageState))
      /\ In (getTimeAgo (fun _ => None) 0 (reviewDateTime review))
            (texts (Reviews_comments (fun _ => None) 0 shortPageState))
      /\ In (reviewerName review)
            (texts (Reviews_comments (fun _ => None) 0 shortPageState))
      /\ In (text review)
            (texts (Reviews_comments (fun _ => None) 0 shortPageState)).
Proof.
  apply (entries_follow_reviews (fun _ => None) 0 shortPageState
           (repeat sampleReview 3)).
  reflexivity.
Defined.

(** * Which fields an action writes, and the first load *)
Section FirstLoad.

(** Before the total has arrived the state holds 0 for it. *)
Lemma reachable_total_unset state :
  reachable state -> State.hasTotal state = false -> State.total state = 0.
Proof.
  intros Hreach.
  induction Hreach as [|state state' action _ IH Hstep]; [reflexivity|].
  revert Hstep. unfold reducer.
  repeat match goal with
         | |- context [String.eqb (type action) ?s] =>
             destruct (String.eqb (type action) s)
         end; intros H; inversion H; cbn; try exact IH; discriminate.
Qed.

End FirstLoad.

(** X21.  Every action writes only its own part of the state: the page size
    is never written, the offset only by the two paging actions, and the
    sort key, the reviews, the total with its flag, the average with its
    flag and the form flag each only by the one action named after it. *)
Theorem reducer_frame :
  forall (state state' : State.t) (action : Action),
    reducer state action = Some state' ->
    State.limit state' = State.limit state
    /\ (isPaging (type action) = false ->
        State.offset state' = State.offset state)
    /\ (type action <> "SET_SELECTED_SORT" ->
        State.sort state' = State.sort state)
    /\ (type action <> "SET_REVIEWS" ->
        State.reviews state' = State.reviews state)
    /\ (type action <> "SET_TOTAL" ->
        State.total state' = State.total state
        /\ State.hasTotal state' = State.hasTotal state)
    /\ (type action <> "SET_AVERAGE" ->
        State.average state' = State.average state
        /\ State.hasAverage state' = State.hasAverage state)
    /\ (type action <> "TOGGLE_REVIEW_FORM" ->
        State.showForm state' = State.showForm state).
Proof.
  intros state state' [ty ar] Hstep. cbn [type].
  assert (Hrec : recognized ty = true).
  { destruct (recognized ty) eqn:Hrec; [reflexivity|].
    apply (reducer_returns state {| type := ty; args := ar |}) in Hrec.
    congruence. }
  apply recognized_cases in Hrec.
  destruct Hrec as [->|[->|[->|[->|[->|[->| ->]]]]]];
    inversion Hstep; cbn [State.sort State.offset State.limit State.reviews
      State.total State.average State.hasTotal State.hasAverage State.showForm
      with_offset with_showForm with_sort with_reviews with_total with_average];
    repeat split; intros; try reflexivity; try congruence;
    match goal with
    | Hpaging : isPaging _ = false |- _ =>
        vm_compute in Hpaging; discriminate Hpaging
    end.
Qed.

Lemma reducer_frame_witness :
  State.limit (with_total fullPageState 7 true) = State.limit fullPageState
  /\ (isPaging (type (onTotalResponse 7)) = false ->
      State.offset (with_total fullPageState 7 true)
      = State.offset fullPageState)
  /\ (type (onTotalResponse 7) <> "SET_SELECTED_SORT" ->
      State.sort (with_total fullPageState 7 true) = State.sort fullPageState)
  /\ (type (onTotalResponse 7) <> "SET_REVIEWS" ->
      State.reviews (with_total fullPageState 7 true)
      = State.reviews fullPageState)
  /\ (type (onTotalResponse 7) <> "SET_TOTAL" ->
      State.total (with_total fullPageState 7 true) = State.total fullPageState
      /\ State.hasTotal (with_total fullPageState 7 true)
         = State.hasTotal fullPageState)
  /\ (type (onTotalResponse 7) <> "SET_AVERAGE" ->
      State.average (with_total fullPageState 7 true)
      = State.average fullPageState
      /\ State.hasAverage (with_total fullPageState 7 true)
         = State.hasAverage fullPageState)
  /\ (type (onTotalResponse 7) <> "TOGGLE_REVIEW_FORM" ->
      State.showForm (with_total fullPageState 7 true)
      = State.showForm fullPageState).
Proof.
  apply (reducer_frame fullPageState (with_total fullPageState 7 true)
           (onTotalResponse 7)).
  reflexivity.
Defined.

(** X22.  The summary waits for both responses: from the initial state it
    still shows its loading text when only the total or only the average
    has arrived; once both have, in either order, it shows nothing for a
    total of 0 and the stars, the average and the count otherwise. *)
Theorem summary_after_responses :
  forall (total : Z) (average : Q),
    option_map Reviews_rating (reducer initialState (onTotalResponse total))
    = Some (Fragment [Text "Loading summary..."])
    /\ option_map Reviews_rating
         (reducer initialState (onAverageResponse average))
       = Some (Fragment [Text "Loading summary..."])
    /\ Forall
         (fun responses =>
            option_map Reviews_rating (dispatchAll initialState responses)
            = Some
                (if total =? 0 then Null
                 else
                   Fragment
                     [ Tag "div" "t-heading-4" [Stars average];
                       Tag "span" "review__rating--average dib v-mid"
                           [NumQ average; Text " Average Rating"];
                       Text " ";
                       Tag "span" "review__rating--count dib v-mid"
                           [Text "("; Num total; Text " Reviews)"] ]))
         [ [onTotalResponse total; onAverageResponse average];
           [onAverageResponse average; onTotalResponse total] ].
Proof.
  intros total average. split; [reflexivity|]. split; [reflexivity|].
  repeat constructor.
Qed.

(** X23.  The list does not wait for the total: in a reachable state whose
    total has not arrived, a page that is loaded and not empty is rendered
    with a pager that counts 0 items in all. *)
Theorem pager_before_total :
  forall (Date_parse : string -> option Z) (Date_now : Z)
         (state : State.t) (reviews : list Review),
    reachable state ->
    State.hasTotal state = false ->
    State.reviews state = Some reviews ->
    reviews <> [] ->
    exists pg : PaginationProps,
      pagers (Reviews_comments Date_parse Date_now state) = [pg]
      /\ totalItems pg = 0
      /\ Reviews_rating state = Fragment [Text "Loading summary..."].
Proof.
  intros Date_parse Date_now state reviews Hreach Hflag Hrs Hne.
  eexists. split;
    [apply (pagers_loaded Date_parse Date_now state reviews Hrs Hne)|].
  cbn [totalItems]. split.
  - apply (reachable_total_unset state Hreach Hflag).
  - apply rating_loading_iff. rewrite Hflag. reflexivity.
Qed.

Lemma pager_before_total_witness :
  exists pg : PaginationProps,
    pagers (Reviews_comments (fun _ => None) 0 fullPageState) = [pg]
    /\ totalItems pg = 0
    /\ Reviews_rating fullPageState = Fragment [Text "Loading summary..."].
Proof.
  apply (pager_before_total (fun _ => None) 0 fullPageState
           (repeat sampleReview 10)).
  - apply (reachable_dispatch initialState fullPageState
             (onReviewsResponse (Some (repeat sampleReview 10)))).
    + apply reachable_initial.
    + reflexivity.
  - reflexivity.
  - reflexivity.
  - discriminate.
Defined.
